(** * The video-playback session controller of [VideoPlayerScreen.tsx]

    A shallow embedding of the React component [VideoPlayerScreen]
    (src/screens/VideoPlayerScreen.tsx) and of [debounce]
    (src/utils/helpers.ts), and the properties of the controller's
    specification checked against it; then the helpers and services around
    it, [formatVideoDuration] (src/utils/helpers.ts),
    [convertISO8601ToSeconds] (src/services/youtubeApi.ts) and
    [scheduleSessionNotification] (src/services/notificationService.ts), in
    the module [Helpers], with their properties in [HelpersFacts].

    Conventions of the embedding.

    - JavaScript numbers that carry seconds or percentages (playback position,
      video duration, completion percentage) are exact rationals [Q]; the
      rounding of IEEE doubles is not modelled.  Wall-clock timestamps
      ([Date.now()], timer deadlines) and minutes are integers [Z].
    - The component is a state machine.  Its state [Screen] holds the
      [useState] cells, the refs, the [timeoutId] variable of the current
      [debounce] closure, the JavaScript timer table with the clock, and the
      chronological list of the effects the component has had on its
      collaborators (store writes, injected scripts, alerts, error logs).
    - [console.error] is an effect; [console.log] is not modelled.
    - One [step] is one task of the JavaScript event loop: the body of a
      handler ([dispatch]) followed by React's re-render and the effects whose
      dependency arrays changed ([commit]).  A closure created by a render sees
      the values of that render: the clean-up of an effect runs with the values
      of the previous render, which are those of the state before the handler
      ran. *)

From Stdlib Require Import ZArith QArith Qround Qminmax Qabs.
From Stdlib Require Import Lia Lqa List Bool.
From Stdlib Require String Ascii Decimal DecimalString DecimalN DecimalZ.
Import ListNotations.

Set Implicit Arguments.

(** ** JavaScript numbers *)

Module JS.

Local Open Scope Q_scope.

(** [x < y] on numbers, as a boolean. *)
Definition ltb (x y : Q) : bool := negb (Qle_bool y x).

(** [Math.floor]. *)
Definition floor (x : Q) : Q := inject_Z (Qfloor x).

(** [Math.min]. *)
Definition min (x y : Q) : Q := Qmin x y.

(** [parseFloat(x.toFixed(1))]: [toFixed] takes the integer [n] for which
      [n / 10 - x] is closest to zero, the larger one on a tie, and treats a
      negative [x] through its absolute value. *)
Definition toFixed1 (x : Q) : Q :=
    if ltb x 0
    then - (Qfloor ((- x) * 10 + (1 # 2)) # 10)
    else Qfloor (x * 10 + (1 # 2)) # 10.

(** [x || d] on a number: zero is falsy. *)
Definition or_else (x d : Q) : Q := if Qeq_bool x 0 then d else x.

(** Truthiness of [number | null] holding a timestamp. *)
Definition truthy (x : option Z) : option Z :=
    match x with
    | Some 0%Z => None
    | _ => x
    end.

End JS.

(** ** Data (src/types/firebaseTypes.ts) *)

Record VideoProgress := mkProgress {
  lastPosition : Q;            (* seconds *)
  completionPercentage : Q;
  completed : bool;
  lastUpdated : Z              (* firebase Timestamp, in milliseconds *)
}.

Record Video := mkVideo {
  duration : Q;                (* seconds *)
  progress : VideoProgress
}.

(** ** Messages of the WebView bridge *)

Module YTPlayerState.
Definition UNSTARTED : Z := -1.
Definition ENDED : Z := 0.
Definition PLAYING : Z := 1.
Definition PAUSED : Z := 2.
Definition BUFFERING : Z := 3.
Definition CUED : Z := 5.
End YTPlayerState.

Inductive MessageType :=
| PLAYER_READY
| PLAYER_STATE_CHANGE
| PLAYER_ERROR
| TIME_UPDATE
| SESSION_END_REQUEST
| OTHER_TYPE.     (* any [type] outside the five cases of the switch *)

(** The object [JSON.parse] returns; an absent field is [undefined]. *)
Record WebViewMessage := mkMessage {
  type : MessageType;
  currentTime : option Q;
  playerState : option Z;
  errorCode : option Z
}.

(** ** What the component does to its collaborators *)

Inductive Script :=
| SeekTo (t : Q)                   (* player.seekTo(t, true) *)
| PostSessionEndRequest (fallback : Q)
    (* posts SESSION_END_REQUEST with player.getCurrentTime(), or with
       [fallback] if that throws *)
| PostTimeUpdate.                  (* posts TIME_UPDATE, fromBackground *)

Inductive AlertBox :=
| SessionEnded                     (* its only button runs navigation.goBack() *)
| SessionExtended
| SessionStartedAndExtended (minutes : Z)
| PlayerErrorAlert (code : option Z).

Inductive ErrorLog :=
| FailedToSaveProgress
| ErrorParsingWebViewMessage
| YouTubePlayerError (code : option Z).

Inductive Effect :=
| StoreUpdate (p : VideoProgress)  (* firestore ... .update({progress: p}) *)
| InjectJavaScript (s : Script)
| Alert (a : AlertBox)
| ConsoleError (e : ErrorLog).

(** ** The JavaScript timer table *)

(** The closures handed to [setTimeout] and [setInterval], with the values
    they captured. *)
Inductive Callback :=
| SaveProgress (video : option Video) (focused : bool)
               (position : Q) (isCompleted : option bool)
    (* [() => func(...args)] of [debounce], [func] being the async function of
       [debouncedSaveProgress] with the [videoData] and [isFocused] of the
       render that created it *)
| UpdateTimer (endTime : Z) (playbackTime : Q).
    (* [updateTimer] with the [sessionEndTime] and [currentPlaybackTime] of
       the render whose effect created it *)

Record Timer := mkTimer {
  tid : nat;
  due : Z;
  callback : Callback
}.

Definition clearTimer (id : nat) (ts : list Timer) : list Timer :=
  filter (fun t => negb (Nat.eqb (tid t) id)) ts.

Definition findTimer (id : nat) (ts : list Timer) : option Timer :=
  find (fun t => Nat.eqb (tid t) id) ts.

Definition rearm (id : nat) (at_ : Z) (ts : list Timer) : list Timer :=
  map (fun t => if Nat.eqb (tid t) id then mkTimer (tid t) at_ (callback t) else t) ts.

(** The first timer among those with the earliest deadline not after
    [limit]. *)
Fixpoint nextDue (limit : Z) (ts : list Timer) : option Timer :=
  match ts with
  | [] => None
  | t :: rest =>
      match nextDue limit rest with
      | Some u => if (due t <=? due u)%Z then Some t else Some u
      | None => if (due t <=? limit)%Z then Some t else None
      end
  end.

(** ** The state of the component *)

Record Screen := mkScreen {
  (* useState *)
  videoData : option Video;
  videoDataRev : nat;           (* identity of the [videoData] object *)
  userPrefs : option Z;         (* defaultSessionDuration, minutes *)
  sessionEndTime : option Z;
  isPlayerReady : bool;
  currentPlaybackTime : Q;
  sessionTimeRemaining : Z;
  (* useIsFocused *)
  isFocused : bool;
  (* useRef *)
  webViewRef : bool;            (* webViewRef.current is not null *)
  sessionTimerIntervalRef : option nat;
  (* the variable [timeoutId] of the current debounced function *)
  timeoutId : option nat;
  (* event loop *)
  now : Z;                      (* Date.now() *)
  nextTimerId : nat;
  timers : list Timer;
  (* effects so far, oldest first *)
  effects : list Effect
}.

(** Assignments to one component of the state. *)

Definition setVideoData (v : option Video) (s : Screen) : Screen :=
  mkScreen v (S (videoDataRev s)) (userPrefs s) (sessionEndTime s)
    (isPlayerReady s) (currentPlaybackTime s) (sessionTimeRemaining s)
    (isFocused s) (webViewRef s) (sessionTimerIntervalRef s) (timeoutId s)
    (now s) (nextTimerId s) (timers s) (effects s).

Definition setUserPrefs (p : option Z) (s : Screen) : Screen :=
  mkScreen (videoData s) (videoDataRev s) p (sessionEndTime s)
    (isPlayerReady s) (currentPlaybackTime s) (sessionTimeRemaining s)
    (isFocused s) (webViewRef s) (sessionTimerIntervalRef s) (timeoutId s)
    (now s) (nextTimerId s) (timers s) (effects s).

Definition setSessionEndTime (e : option Z) (s : Screen) : Screen :=
  mkScreen (videoData s) (videoDataRev s) (userPrefs s) e
    (isPlayerReady s) (currentPlaybackTime s) (sessionTimeRemaining s)
    (isFocused s) (webViewRef s) (sessionTimerIntervalRef s) (timeoutId s)
    (now s) (nextTimerId s) (timers s) (effects s).

Definition setIsPlayerReady (b : bool) (s : Screen) : Screen :=
  mkScreen (videoData s) (videoDataRev s) (userPrefs s) (sessionEndTime s)
    b (currentPlaybackTime s) (sessionTimeRemaining s)
    (isFocused s) (webViewRef s) (sessionTimerIntervalRef s) (timeoutId s)
    (now s) (nextTimerId s) (timers s) (effects s).

Definition setCurrentPlaybackTime (t : Q) (s : Screen) : Screen :=
  mkScreen (videoData s) (videoDataRev s) (userPrefs s) (sessionEndTime s)
    (isPlayerReady s) t (sessionTimeRemaining s)
    (isFocused s) (webViewRef s) (sessionTimerIntervalRef s) (timeoutId s)
    (now s) (nextTimerId s) (timers s) (effects s).

Definition setSessionTimeRemaining (r : Z) (s : Screen) : Screen :=
  mkScreen (videoData s) (videoDataRev s) (userPrefs s) (sessionEndTime s)
    (isPlayerReady s) (currentPlaybackTime s) r
    (isFocused s) (webViewRef s) (sessionTimerIntervalRef s) (timeoutId s)
    (now s) (nextTimerId s) (timers s) (effects s).

Definition setIsFocused (b : bool) (s : Screen) : Screen :=
  mkScreen (videoData s) (videoDataRev s) (userPrefs s) (sessionEndTime s)
    (isPlayerReady s) (currentPlaybackTime s) (sessionTimeRemaining s)
    b (webViewRef s) (sessionTimerIntervalRef s) (timeoutId s)
    (now s) (nextTimerId s) (timers s) (effects s).

Definition setWebViewRef (b : bool) (s : Screen) : Screen :=
  mkScreen (videoData s) (videoDataRev s) (userPrefs s) (sessionEndTime s)
    (isPlayerReady s) (currentPlaybackTime s) (sessionTimeRemaining s)
    (isFocused s) b (sessionTimerIntervalRef s) (timeoutId s)
    (now s) (nextTimerId s) (timers s) (effects s).

Definition setSessionTimerIntervalRef (r : option nat) (s : Screen) : Screen :=
  mkScreen (videoData s) (videoDataRev s) (userPrefs s) (sessionEndTime s)
    (isPlayerReady s) (currentPlaybackTime s) (sessionTimeRemaining s)
    (isFocused s) (webViewRef s) r (timeoutId s)
    (now s) (nextTimerId s) (timers s) (effects s).

Definition setTimeoutId (r : option nat) (s : Screen) : Screen :=
  mkScreen (videoData s) (videoDataRev s) (userPrefs s) (sessionEndTime s)
    (isPlayerReady s) (currentPlaybackTime s) (sessionTimeRemaining s)
    (isFocused s) (webViewRef s) (sessionTimerIntervalRef s) r
    (now s) (nextTimerId s) (timers s) (effects s).

Definition setNow (t : Z) (s : Screen) : Screen :=
  mkScreen (videoData s) (videoDataRev s) (userPrefs s) (sessionEndTime s)
    (isPlayerReady s) (currentPlaybackTime s) (sessionTimeRemaining s)
    (isFocused s) (webViewRef s) (sessionTimerIntervalRef s) (timeoutId s)
    t (nextTimerId s) (timers s) (effects s).

Definition setTimers (ts : list Timer) (s : Screen) : Screen :=
  mkScreen (videoData s) (videoDataRev s) (userPrefs s) (sessionEndTime s)
    (isPlayerReady s) (currentPlaybackTime s) (sessionTimeRemaining s)
    (isFocused s) (webViewRef s) (sessionTimerIntervalRef s) (timeoutId s)
    (now s) (nextTimerId s) ts (effects s).

Definition emit (e : Effect) (s : Screen) : Screen :=
  mkScreen (videoData s) (videoDataRev s) (userPrefs s) (sessionEndTime s)
    (isPlayerReady s) (currentPlaybackTime s) (sessionTimeRemaining s)
    (isFocused s) (webViewRef s) (sessionTimerIntervalRef s) (timeoutId s)
    (now s) (nextTimerId s) (timers s) (effects s ++ [e]).

(** [setTimeout(cb, delay)] and [setInterval(cb, delay)]: a fresh identifier,
    first run [delay] milliseconds from now. *)
Definition schedule (cb : Callback) (delay : Z) (s : Screen) : nat * Screen :=
  (nextTimerId s,
   mkScreen (videoData s) (videoDataRev s) (userPrefs s) (sessionEndTime s)
     (isPlayerReady s) (currentPlaybackTime s) (sessionTimeRemaining s)
     (isFocused s) (webViewRef s) (sessionTimerIntervalRef s) (timeoutId s)
     (now s) (S (nextTimerId s))
     (timers s ++ [mkTimer (nextTimerId s) (now s + delay) cb]) (effects s)).

(** [if (id) clearTimeout(id)] and [if (id) clearInterval(id)]. *)
Definition cancel (id : option nat) (s : Screen) : Screen :=
  match id with
  | Some i => setTimers (clearTimer i (timers s)) s
  | None => s
  end.

(** ** [debounce] (src/utils/helpers.ts)

    A call of the function [debounce(func, delay)] returned, [call] standing
    for [() => func(...args)]: the pending timeout of this closure is
    cleared and a new one is set. *)
Definition debounce (call : Callback) (delay : Z) (s : Screen) : Screen :=
  let s1 := cancel (timeoutId s) s in
  let (id, s2) := schedule call delay s1 in
  setTimeoutId (Some id) s2.

(** ** [debouncedSaveProgress] (VideoPlayerScreen.tsx, lines 61-84) *)

(** The object [newProgress], lines 65-71. *)
Definition newProgress (videoDuration position : Q) (isCompleted : option bool)
    (timestamp : Z) : VideoProgress :=
  let completionPercentage := JS.min 100 ((position / videoDuration) * 100) in
  {| lastPosition := JS.floor position;
     completionPercentage := JS.toFixed1 completionPercentage;
     completed :=
       match isCompleted with
       | Some true => true
       | _ => Qle_bool 98 completionPercentage
       end;
     lastUpdated := timestamp |}.

(** The guard of line 63, on the values the closure captured. *)
Definition saveAllowed (video : option Video) (focused : bool) : bool :=
  match video with
  | None => false
  | Some v => negb (Qeq_bool (duration v) 0) && focused
  end.

(** The async function up to its [await]: the write it issues, if any. *)
Definition progressToSave (video : option Video) (focused : bool)
    (position : Q) (isCompleted : option bool) (timestamp : Z)
    : option VideoProgress :=
  match video with
  | None => None
  | Some v =>
      if Qeq_bool (duration v) 0 || negb focused then None
      else Some (newProgress (duration v) position isCompleted timestamp)
  end.

Definition saveProgress (video : option Video) (focused : bool)
    (position : Q) (isCompleted : option bool) (s : Screen) : Screen :=
  match progressToSave video focused position isCompleted (now s) with
  | Some p => emit (StoreUpdate p) s
  | None => s
  end.

(** A call [debouncedSaveProgress(position, isCompleted)] made by a closure of
    the render [render]: by [useCallback] the debounced function was created
    in the render that last changed [videoData] or [isFocused], so the values
    it captured are those of [render]. *)
Definition debouncedSaveProgress (render : Screen) (position : Q)
    (isCompleted : option bool) (s : Screen) : Screen :=
  debounce (SaveProgress (videoData render) (isFocused render) position isCompleted)
           3000 s.

(** After the [await], lines 77-81: the update resolved or was rejected. *)
Definition updateSettled (ok : bool) (p : VideoProgress) (s : Screen) : Screen :=
  if ok then
    match videoData s with
    | Some prev => setVideoData (Some (mkVideo (duration prev) p)) s
    | None => s
    end
  else emit (ConsoleError FailedToSaveProgress) s.

(** ** The session timer (lines 135-169) *)

(** [updateTimer], lines 141-159, with the [sessionEndTime] and
    [currentPlaybackTime] its closure captured. *)
Definition updateTimer (endTime : Z) (playbackTime : Q) (s : Screen) : Screen :=
  let remaining := Z.max 0 ((endTime - now s) / 1000) in
  let s1 := setSessionTimeRemaining remaining s in
  if (remaining <=? 0)%Z then
    let s2 := if webViewRef s1
              then emit (InjectJavaScript (PostSessionEndRequest playbackTime)) s1
              else s1 in
    cancel (sessionTimerIntervalRef s2) s2
  else s1.

(** The body of the effect, lines 136-162. *)
Definition sessionTimerEffect (s : Screen) : Screen :=
  let s1 := cancel (sessionTimerIntervalRef s) s in
  match JS.truthy (sessionEndTime s1) with
  | Some endTime =>
      if isFocused s1 then
        let s2 := updateTimer endTime (currentPlaybackTime s1) s1 in
        let (id, s3) := schedule (UpdateTimer endTime (currentPlaybackTime s1)) 1000 s2 in
        setSessionTimerIntervalRef (Some id) s3
      else s1
  | None => s1
  end.

(** Its clean-up, lines 164-168. *)
Definition sessionTimerCleanup (s : Screen) : Screen :=
  cancel (sessionTimerIntervalRef s) s.

(** ** The AppState effect (lines 173-205) *)

Inductive AppStateStatus := active | background | inactive.

(** The listener, lines 174-196; the branch that only logs is left out. *)
Definition onAppStateChange (next : AppStateStatus) (s : Screen) : Screen :=
  match next with
  | active => s
  | _ =>
      if isPlayerReady s && webViewRef s
      then emit (InjectJavaScript PostTimeUpdate) s
      else if JS.ltb 0 (currentPlaybackTime s)
           then debouncedSaveProgress s (currentPlaybackTime s) None s
           else s
  end.

(** The clean-up, lines 198-204, a closure of the render [render]. *)
Definition appStateCleanup (render : Screen) (s : Screen) : Screen :=
  if JS.ltb 0 (currentPlaybackTime render)
     && match videoData render with Some _ => true | None => false end
  then debouncedSaveProgress render (currentPlaybackTime render) None s
  else s.

(** ** The handlers *)

(** Lines 224-232. *)
Definition handleFinalSessionEnd (endedAtPosition : Q) (s : Screen) : Screen :=
  let d := match videoData s with
           | Some v => JS.or_else (duration v) 1
           | None => 1%Q
           end in
  let s1 := debouncedSaveProgress s endedAtPosition
              (Some (Qle_bool 98 ((endedAtPosition / d) * 100))) s in
  emit (Alert SessionEnded) s1.

(** Lines 234-283; [None] is a payload on which [JSON.parse] throws. *)
Definition handleWebViewMessage (parsed : option WebViewMessage) (s : Screen)
    : Screen :=
  match parsed with
  | None => emit (ConsoleError ErrorParsingWebViewMessage) s
  | Some message =>
      match type message with
      | PLAYER_READY =>
          let s1 := setIsPlayerReady true s in
          if JS.ltb 0 (currentPlaybackTime s) && webViewRef s
          then emit (InjectJavaScript (SeekTo (currentPlaybackTime s))) s1
          else s1
      | PLAYER_STATE_CHANGE =>
          match playerState message with
          | Some st =>
              if (st =? YTPlayerState.PLAYING)%Z then s
              else if (st =? YTPlayerState.PAUSED)%Z then
                match currentTime message with
                | Some t => debouncedSaveProgress s t None s
                | None => s
                end
              else if (st =? YTPlayerState.ENDED)%Z then
                match currentTime message with
                | Some t => debouncedSaveProgress s t (Some true) s
                | None => s
                end
              else s
          | None => s
          end
      | TIME_UPDATE =>
          match currentTime message with
          | Some t =>
              debouncedSaveProgress s t None (setCurrentPlaybackTime t s)
          | None => s
          end
      | SESSION_END_REQUEST =>
          match currentTime message with
          | Some t => handleFinalSessionEnd t s
          | None => handleFinalSessionEnd (currentPlaybackTime s) s
          end
      | PLAYER_ERROR =>
          emit (Alert (PlayerErrorAlert (errorCode message)))
            (emit (ConsoleError (YouTubePlayerError (errorCode message))) s)
      | OTHER_TYPE => s
      end
  end.

(** Lines 285-300. *)
Definition handleSaveAndExit (s : Screen) : Screen :=
  if isPlayerReady s && webViewRef s
  then emit (InjectJavaScript (PostSessionEndRequest (currentPlaybackTime s))) s
  else handleFinalSessionEnd (currentPlaybackTime s) s.

(** Lines 302-311. *)
Definition handleExtendSession (s : Screen) : Screen :=
  match JS.truthy (sessionEndTime s) with
  | Some _ =>
      let prev := match JS.truthy (sessionEndTime s) with
                  | Some p => p
                  | None => now s
                  end in
      emit (Alert SessionExtended)
        (setSessionEndTime (Some (prev + 5 * 60 * 1000)%Z) s)
  | None =>
      match userPrefs s with
      | Some defaultSessionDuration =>
          let newDuration :=
            ((if (0 <? defaultSessionDuration)%Z then defaultSessionDuration else 0) + 5)%Z in
          emit (Alert (SessionStartedAndExtended newDuration))
            (setSessionEndTime (Some (now s + newDuration * 60 * 1000)%Z) s)
      | None => s
      end
  end.

(** [fetchInitialData], lines 105-107: the video document arrived. *)
Definition videoFetched (v : Video) (s : Screen) : Screen :=
  setCurrentPlaybackTime (JS.or_else (lastPosition (progress v)) 0)
    (setVideoData (Some v) s).

(** Lines 109-121 and 127: the user document arrived, [preference] being
    [profile.preferences?.defaultSessionDuration] ([None] when the document
    or the field is missing); the loading indicator gives way to the
    WebView when a video is loaded. *)
Definition userFetched (preference : option Z) (s : Screen) : Screen :=
  let defaultDuration := match preference with
                         | Some 0%Z | None => 30%Z
                         | Some p => p
                         end in
  let s1 := setUserPrefs (Some defaultDuration) s in
  let s2 := if (0 <? defaultDuration)%Z
            then setSessionEndTime (Some (now s + defaultDuration * 60 * 1000)%Z) s1
            else s1 in
  setWebViewRef (match videoData s with Some _ => true | None => false end) s2.

(** A timer of the table runs, once its deadline has passed: a timeout is
    removed, an interval is armed again unless its callback cleared it. *)
Definition fire (id : nat) (s : Screen) : Screen :=
  match findTimer id (timers s) with
  | None => s
  | Some t =>
      if (due t <=? now s)%Z then
        match callback t with
        | SaveProgress video focused position isCompleted =>
            saveProgress video focused position isCompleted
              (setTimers (clearTimer id (timers s)) s)
        | UpdateTimer endTime playbackTime =>
            let s1 := updateTimer endTime playbackTime s in
            setTimers (rearm id (now s + 1000) (timers s1)) s1
        end
      else s
  end.

(** ** Events, re-rendering and effects *)

Inductive Event :=
| VideoFetched (v : Video)
| UserFetched (preference : option Z)
| Message (parsed : option WebViewMessage)
| SaveAndExit
| ExtendSession
| FocusChange (focused : bool)
| AppStateChange (next : AppStateStatus)
| UpdateSettled (ok : bool) (p : VideoProgress)
| TimerFires (id : nat).

Definition dispatch (e : Event) (s : Screen) : Screen :=
  match e with
  | VideoFetched v => videoFetched v s
  | UserFetched preference => userFetched preference s
  | Message parsed => handleWebViewMessage parsed s
  | SaveAndExit => handleSaveAndExit s
  | ExtendSession => handleExtendSession s
  | FocusChange focused => setIsFocused focused s
  | AppStateChange next => onAppStateChange next s
  | UpdateSettled ok p => updateSettled ok p s
  | TimerFires id => fire id s
  end.

Definition optZ_eqb (a b : option Z) : bool :=
  match a, b with
  | Some x, Some y => (x =? y)%Z
  | None, None => true
  | _, _ => false
  end.

Definition videoDataChanged (prev s : Screen) : bool :=
  negb (Nat.eqb (videoDataRev prev) (videoDataRev s)).

Definition isFocusedChanged (prev s : Screen) : bool :=
  negb (Bool.eqb (isFocused prev) (isFocused s)).

Definition currentPlaybackTimeChanged (prev s : Screen) : bool :=
  negb (Qeq_bool (currentPlaybackTime prev) (currentPlaybackTime s)).

(** [useCallback] of line 61, dependencies [videoData, videoId, isFocused]. *)
Definition saveCallbackChanged (prev s : Screen) : bool :=
  videoDataChanged prev s || isFocusedChanged prev s.

(** Dependencies of the session timer effect, line 169. *)
Definition sessionTimerDepsChanged (prev s : Screen) : bool :=
  negb (optZ_eqb (sessionEndTime prev) (sessionEndTime s))
  || isFocusedChanged prev s
  || currentPlaybackTimeChanged prev s.

(** Dependencies of the AppState effect, line 205. *)
Definition appStateDepsChanged (prev s : Screen) : bool :=
  negb (Bool.eqb (isPlayerReady prev) (isPlayerReady s))
  || currentPlaybackTimeChanged prev s
  || videoDataChanged prev s
  || saveCallbackChanged prev s.

(** The re-render after a task that took the state from [prev] to [s]: the
    clean-ups of the effects whose dependencies changed run first, as
    closures of the render [prev]; a changed [useCallback] leaves the old
    debounced function to its pending timeout and starts a new one with no
    timeout; then the effects run on the new values. *)
Definition commit (prev s : Screen) : Screen :=
  let s1 := if sessionTimerDepsChanged prev s then sessionTimerCleanup s else s in
  let s2 := if appStateDepsChanged prev s then appStateCleanup prev s1 else s1 in
  let s3 := if saveCallbackChanged prev s then setTimeoutId None s2 else s2 in
  if sessionTimerDepsChanged prev s then sessionTimerEffect s3 else s3.

Definition step (e : Event) (s : Screen) : Screen :=
  commit s (dispatch e s).

(** The component as first rendered at time [t0], focused, nothing loaded. *)
Definition mount (t0 : Z) : Screen :=
  mkScreen None 0 None None false 0 0 true false None None t0 1 [] [].

(** The clock moves to [target]; the timers that fall due on the way run in
    the order of their deadlines.  [None] if [fuel] timers did not suffice. *)
Fixpoint elapseTo (fuel : nat) (target : Z) (s : Screen) : option Screen :=
  match nextDue target (timers s) with
  | None => Some (setNow (Z.max (now s) target) s)
  | Some t =>
      match fuel with
      | O => None
      | S fuel' =>
          elapseTo fuel' target
            (step (TimerFires (tid t)) (setNow (Z.max (now s) (due t)) s))
      end
  end.

(** A scenario: events, and waits given in milliseconds. *)
Inductive Action :=
| Do (e : Event)
| Wait (ms : Z).

Fixpoint run (fuel : nat) (script : list Action) (s : Screen) : option Screen :=
  match script with
  | [] => Some s
  | Do e :: rest => run fuel rest (step e s)
  | Wait ms :: rest =>
      match elapseTo fuel (now s + ms) s with
      | Some s' => run fuel rest s'
      | None => None
      end
  end.

(** The store writes among the effects, oldest first. *)
Fixpoint storeWrites (l : list Effect) : list VideoProgress :=
  match l with
  | [] => []
  | StoreUpdate p :: rest => p :: storeWrites rest
  | _ :: rest => storeWrites rest
  end.

(** The requests to end the session the timer has injected. *)
Fixpoint sessionEndRequests (l : list Effect) : list Q :=
  match l with
  | [] => []
  | InjectJavaScript (PostSessionEndRequest t) :: rest => t :: sessionEndRequests rest
  | _ :: rest => sessionEndRequests rest
  end.

(** ** Scenarios *)

(** The messages the player page posts (lines 373-391). *)
Definition timeUpdate (t : Q) : Event :=
  Message (Some (mkMessage TIME_UPDATE (Some t) None None)).

Definition stateChange (st : Z) (t : Q) : Event :=
  Message (Some (mkMessage PLAYER_STATE_CHANGE (Some t) (Some st) None)).

(** The screen once [fetchInitialData] has loaded the video and the user. *)
Definition session (v : Video) (preference : option Z) (t0 : Z) : Screen :=
  step (UserFetched preference) (step (VideoFetched v) (mount t0)).

Definition freshVideo (seconds : Q) : Video :=
  mkVideo seconds (mkProgress 0 0 false 0).

(** Calls of the debounced function alone: at each given time the clock is
    set and the function called with the given position. *)
Fixpoint debouncedCalls (render : Screen) (calls : list (Z * Q)) (s : Screen)
    : Screen :=
  match calls with
  | [] => s
  | (time, position) :: rest =>
      debouncedCalls render rest
        (debouncedSaveProgress render position None (setNow time s))
  end.

(** ** Invariants and relations between states *)

(** Timer identifiers are handed out in increasing order. *)
Definition timersFresh (s : Screen) : Prop :=
  Forall (fun t => (tid t < nextTimerId s)%nat) (timers s).

(** The states the component can be in: mounted, then any sequence of
    events and of advances of the clock. *)
Inductive reachable : Screen -> Prop :=
| reach_mount : forall t0, reachable (mount t0)
| reach_step : forall e s, reachable s -> reachable (step e s)
| reach_clock : forall t s, reachable s -> (now s <= t)%Z -> reachable (setNow t s).

(** The interval handle is an identifier already handed out. *)
Definition refFresh (s : Screen) : Prop :=
  forall i, sessionTimerIntervalRef s = Some i -> (i < nextTimerId s)%nat.

(** The table once the pending timeout of the debounced function is cleared. *)
Definition pendingAfterClear (s : Screen) : list Timer :=
  match timeoutId s with
  | Some i => clearTimer i (timers s)
  | None => timers s
  end.

(** The React state, the clock and the store writes: what timers and
    effects never touch. *)
Record frame (s s' : Screen) : Prop := {
  fr_videoData : videoData s' = videoData s;
  fr_videoDataRev : videoDataRev s' = videoDataRev s;
  fr_userPrefs : userPrefs s' = userPrefs s;
  fr_sessionEndTime : sessionEndTime s' = sessionEndTime s;
  fr_isPlayerReady : isPlayerReady s' = isPlayerReady s;
  fr_currentPlaybackTime : currentPlaybackTime s' = currentPlaybackTime s;
  fr_isFocused : isFocused s' = isFocused s;
  fr_webViewRef : webViewRef s' = webViewRef s;
  fr_now : now s' = now s;
  fr_effects : exists l, effects s' = effects s ++ l /\ storeWrites l = []
}.

(** [s'] has the effects of [s] and then some that are not store writes. *)
Definition quiet (s s' : Screen) : Prop :=
  exists l, effects s' = effects s ++ l /\ storeWrites l = [].



(** ** The countdown interval *)

Definition isInterval (t : Timer) : bool :=
  match callback t with
  | UpdateTimer _ _ => true
  | SaveProgress _ _ _ _ => false
  end.

(** The intervals of the table, as identifier and closure. *)
Definition intervalKeys (s : Screen) : list (nat * Callback) :=
  map (fun t => (tid t, callback t)) (filter isInterval (timers s)).

(** [s'] has the interval handle of [s] and some of its intervals, no new
    one. *)
Definition shrinks (s s' : Screen) : Prop :=
  sessionTimerIntervalRef s' = sessionTimerIntervalRef s /\
  exists keep, intervalKeys s' = filter keep (intervalKeys s).

(** Every interval of the table is the one the ref holds, and there is at
    most one. *)
Definition intervalsOwned (s : Screen) : Prop :=
  (forall i cb, In (i, cb) (intervalKeys s) -> sessionTimerIntervalRef s = Some i) /\
  (length (intervalKeys s) <= 1)%nat.

(** The closure of a pending interval is the one of the current render. *)
Definition intervalCurrent (s : Screen) : Prop :=
  forall i cb, In (i, cb) (intervalKeys s) ->
    isFocused s = true /\
    exists endTime playbackTime,
      cb = UpdateTimer endTime playbackTime /\
      JS.truthy (sessionEndTime s) = Some endTime /\
      (playbackTime == currentPlaybackTime s)%Q.

(** The countdown shown is not negative. *)
Definition remainingNonneg (s : Screen) : Prop := (0 <= sessionTimeRemaining s)%Z.

(** ** The dashboard's progress bar (src/screens/DashboardScreen.tsx) *)

(** Line 150: the fill of the bar is as wide as the percentage, capped at
    100. *)
Definition progressFillWidth (p : VideoProgress) : Q :=
  JS.min 100 (completionPercentage p).

(** ** Further messages of the player page *)

Definition playerError (code : option Z) : Event :=
  Message (Some (mkMessage PLAYER_ERROR None None code)).

Definition playerReady : Event :=
  Message (Some (mkMessage PLAYER_READY None None None)).

Definition sessionEndRequest (t : option Q) : Event :=
  Message (Some (mkMessage SESSION_END_REQUEST t None None)).


(** ** The helpers and services on strings *)

Module Helpers.

Import Ascii String DecimalString.
Local Open Scope string_scope.

(** *** Strings *)

Module Text.

(** A template literal applied to an integer-valued number: its decimal
    digits, with a sign when negative. *)
Definition show (z : Z) : string := NilEmpty.string_of_int (Z.to_int z).

Definition isWhite (c : ascii) : bool :=
  let n := nat_of_ascii c in
  Nat.eqb n 32 || (Nat.leb 9 n && Nat.leb n 13).

Fixpoint trimStart (s : string) : string :=
  match s with
  | String c rest => if isWhite c then trimStart rest else s
  | EmptyString => s
  end.

Fixpoint trimEnd (s : string) : string :=
  match s with
  | String c rest =>
      match trimEnd rest with
      | EmptyString => if isWhite c then EmptyString else String c EmptyString
      | kept => String c kept
      end
  | EmptyString => s
  end.

(** [s.trim()]. *)
Definition trim (s : string) : string := trimEnd (trimStart s).

(** [s || d] on strings: the empty string is falsy. *)
Definition or_else (s d : string) : string :=
  match s with
  | EmptyString => d
  | _ => s
  end.

Definition isDigit (c : ascii) : bool :=
  let n := nat_of_ascii c in Nat.leb 48 n && Nat.leb n 57.

(** The longest prefix of digits, and what follows it. *)
Fixpoint digitsPrefix (s : string) : string * string :=
  match s with
  | String c rest =>
      if isDigit c
      then let (ds, after) := digitsPrefix rest in (String c ds, after)
      else (EmptyString, s)
  | EmptyString => (EmptyString, s)
  end.

(** [parseInt(ds, 10)] on a string of digits: its decimal value. *)
Definition parseInt (ds : string) : N :=
  match NilEmpty.uint_of_string ds with
  | Some d => N.of_uint d
  | None => 0%N
  end.

Fixpoint replicate (n : nat) (c : ascii) : string :=
  match n with
  | O => EmptyString
  | S n' => String c (replicate n' c)
  end.

(** [s.padStart(target, c)] for a filler of one character. *)
Definition padStart (target : nat) (c : ascii) (s : string) : string :=
  replicate (target - String.length s) c ++ s.

(** The character of a decimal digit. *)
Definition digit (d : Z) : ascii := ascii_of_nat (48 + Z.to_nat d).

End Text.

(** A JavaScript number that may be NaN; the infinities are left out. *)
Inductive number :=
| NaN
| Num (q : Q).

(** [x % m] for numbers: the remainder of the division truncated towards
    zero. *)
Definition remainder (x m : Q) : Q :=
  let q := (x / m)%Q in
  (x - m * inject_Z (if JS.ltb q 0 then Qceiling q else Qfloor q))%Q.

(** ** [formatVideoDuration] (src/utils/helpers.ts) *)

Definition formatVideoDuration (totalSeconds : number) : string :=
  match totalSeconds with
  | NaN => "0s"%string
  | Num t =>
      if JS.ltb t 0 then "0s"%string
      else
        let hours := Qfloor (t / 3600) in
        let minutes := Qfloor (remainder t 3600 / 60) in
        let seconds := Qfloor (remainder t 60) in
        let formattedDuration := EmptyString in
        let formattedDuration :=
          if (0 <? hours)%Z
          then (formattedDuration ++ Text.show hours ++ "h ")%string
          else formattedDuration in
        let formattedDuration :=
          if (0 <? minutes)%Z || (0 <? hours)%Z
          then (formattedDuration ++ Text.show minutes ++ "m ")%string
          else formattedDuration in
        let formattedDuration :=
          if (hours =? 0)%Z && (minutes =? 0)%Z
          then (formattedDuration ++ Text.show seconds ++ "s")%string
          else if (0 <? seconds)%Z && (hours =? 0)%Z
               then (formattedDuration ++ Text.show seconds ++ "s")%string
               else formattedDuration in
        Text.or_else (Text.trim formattedDuration) "0s"
  end.

(** ** [convertISO8601ToSeconds] (src/services/youtubeApi.ts) *)

(** What follows the first occurrence of "PT", where the match of the
    regular expression starts. *)
Fixpoint afterPT (s : string) : option string :=
  match s with
  | String c rest =>
      match rest with
      | String c' rest' =>
          if Ascii.eqb c "P" && Ascii.eqb c' "T" then Some rest' else afterPT rest
      | EmptyString => None
      end
  | EmptyString => None
  end.

(** The character [c] does not occur in [s]. *)
Fixpoint without (c : ascii) (s : string) : Prop :=
  match s with
  | String c' rest => c' <> c /\ without c rest
  | EmptyString => True
  end.

(** One optional group [(?:(\d+)U)?] at the head of [s]: the digits
    captured, if the group matches, and what is left to match. *)
Definition optionalGroup (unit : ascii) (s : string) : option string * string :=
  match Text.digitsPrefix s with
  | (String d ds, String c after) =>
      if Ascii.eqb c unit then (Some (String d ds), after) else (None, s)
  | _ => (None, s)
  end.

(** The digits of a natural number. *)
Definition decimal (n : N) : string := NilEmpty.string_of_uint (N.to_uint n).



Definition captured (group : option string) : N :=
  Text.parseInt (match group with
                 | Some ds => ds
                 | None => "0"%string
                 end).

Definition convertISO8601ToSeconds (durationISO : string) : N :=
  match durationISO with
  | EmptyString => 0%N
  | _ =>
      match afterPT durationISO with
      | None => 0%N
      | Some body =>
          let (h, afterH) := optionalGroup "H" body in
          let (m, afterM) := optionalGroup "M" afterH in
          let (sec, _) := optionalGroup "S" afterM in
          (captured h * 3600 + captured m * 60 + captured sec)%N
      end
  end.

(** ** [scheduleSessionNotification] (src/services/notificationService.ts) *)

(** The time the reminder is set for, lines 62-78, from the session's start
    and the clock, in milliseconds; [None] when the function gives up. *)
Definition reminderTrigger (scheduledDate now : Z) : option Z :=
  let triggerTime := (scheduledDate - 5 * 60 * 1000)%Z in
  let triggerTime := if (triggerTime <? now)%Z then scheduledDate else triggerTime in
  if (triggerTime <=? now)%Z
  then if (now <? scheduledDate)%Z then Some scheduledDate else None
  else Some triggerTime.

(** The whole function: permission may be refused, and the platform's
    scheduler, given the trigger, returns an identifier or throws. *)
Definition scheduleSessionNotification {Id : Type} (permissionGranted : bool)
    (scheduleNotificationAsync : Z -> option Id) (scheduledDate now : Z)
    : option Id :=
  if permissionGranted
  then match reminderTrigger scheduledDate now with
       | Some triggerTime => scheduleNotificationAsync triggerTime
       | None => None
       end
  else None.

(** ** The countdown as the player screen shows it
       (src/screens/VideoPlayerScreen.tsx, line 439) *)

(** The text after "Session Time: ": the whole minutes, a colon and the
    seconds, from [sessionTimeRemaining]. *)
Definition sessionTimeText (remaining : Z) : string :=
  Text.show (remaining / 60)
  ++ ":" ++ Text.padStart 2 "0" (Text.show (Z.rem remaining 60)).

End Helpers.

(** * Properties *)

(** ** Timer identifiers are fresh *)

Create HintDb fresh.

Lemma fresh_cancel id s : timersFresh s -> timersFresh (cancel id s).
Proof.
  unfold timersFresh, cancel, clearTimer. destruct id; cbn; auto.
  intro H. apply Forall_forall. intros t Ht. apply filter_In in Ht.
  rewrite Forall_forall in H. apply H, Ht.
Qed.

Lemma fresh_schedule cb delay s :
  timersFresh s -> timersFresh (snd (schedule cb delay s)).
Proof.
  unfold timersFresh, schedule. cbn. intro H. apply Forall_app. split.
  - eapply Forall_impl; [| exact H]. cbn. intros; lia.
  - constructor; [cbn; lia | constructor].
Qed.

Lemma fresh_debounce cb delay s : timersFresh s -> timersFresh (debounce cb delay s).
Proof.
  intro H. unfold debounce.
  pose proof (fresh_schedule cb delay (fresh_cancel (timeoutId s) H)) as F.
  destruct (schedule cb delay (cancel (timeoutId s) s)) as [id s2]. exact F.
Qed.

Lemma fresh_rearm id t s :
  timersFresh s -> timersFresh (setTimers (rearm id t (timers s)) s).
Proof.
  unfold timersFresh, rearm. cbn. intro H. apply Forall_map.
  eapply Forall_impl; [| exact H]. intros a Ha. destruct (Nat.eqb (tid a) id); exact Ha.
Qed.

Lemma fresh_clear id s :
  timersFresh s -> timersFresh (setTimers (clearTimer id (timers s)) s).
Proof. intro H. exact (fresh_cancel (Some id) H). Qed.

Lemma fresh_setVideoData v s : timersFresh s -> timersFresh (setVideoData v s).
Proof. exact (fun H => H). Qed.
Lemma fresh_setUserPrefs v s : timersFresh s -> timersFresh (setUserPrefs v s).
Proof. exact (fun H => H). Qed.
Lemma fresh_setSessionEndTime v s : timersFresh s -> timersFresh (setSessionEndTime v s).
Proof. exact (fun H => H). Qed.
Lemma fresh_setIsPlayerReady v s : timersFresh s -> timersFresh (setIsPlayerReady v s).
Proof. exact (fun H => H). Qed.
Lemma fresh_setCurrentPlaybackTime v s : timersFresh s -> timersFresh (setCurrentPlaybackTime v s).
Proof. exact (fun H => H). Qed.
Lemma fresh_setSessionTimeRemaining v s : timersFresh s -> timersFresh (setSessionTimeRemaining v s).
Proof. exact (fun H => H). Qed.
Lemma fresh_setIsFocused v s : timersFresh s -> timersFresh (setIsFocused v s).
Proof. exact (fun H => H). Qed.
Lemma fresh_setWebViewRef v s : timersFresh s -> timersFresh (setWebViewRef v s).
Proof. exact (fun H => H). Qed.
Lemma fresh_setSessionTimerIntervalRef v s : timersFresh s -> timersFresh (setSessionTimerIntervalRef v s).
Proof. exact (fun H => H). Qed.
Lemma fresh_setTimeoutId v s : timersFresh s -> timersFresh (setTimeoutId v s).
Proof. exact (fun H => H). Qed.
Lemma fresh_setNow v s : timersFresh s -> timersFresh (setNow v s).
Proof. exact (fun H => H). Qed.
Lemma fresh_emit v s : timersFresh s -> timersFresh (emit v s).
Proof. exact (fun H => H). Qed.

#[export] Hint Resolve fresh_cancel fresh_debounce fresh_rearm fresh_clear
  fresh_setVideoData fresh_setUserPrefs fresh_setSessionEndTime
  fresh_setIsPlayerReady fresh_setCurrentPlaybackTime
  fresh_setSessionTimeRemaining fresh_setIsFocused fresh_setWebViewRef
  fresh_setSessionTimerIntervalRef fresh_setTimeoutId fresh_setNow fresh_emit
  : fresh.

Lemma fresh_debouncedSaveProgress r p c s :
  timersFresh s -> timersFresh (debouncedSaveProgress r p c s).
Proof. unfold debouncedSaveProgress. auto with fresh. Qed.
#[export] Hint Resolve fresh_debouncedSaveProgress : fresh.

Lemma fresh_saveProgress v f p c s :
  timersFresh s -> timersFresh (saveProgress v f p c s).
Proof. unfold saveProgress. destruct progressToSave; auto with fresh. Qed.

Lemma fresh_updateTimer e c s : timersFresh s -> timersFresh (updateTimer e c s).
Proof.
  unfold updateTimer. intro H.
  destruct (_ <=? 0)%Z; [destruct (webViewRef _) |]; auto 7 with fresh.
Qed.
#[export] Hint Resolve fresh_saveProgress fresh_updateTimer : fresh.

Lemma fresh_sessionTimerEffect s : timersFresh s -> timersFresh (sessionTimerEffect s).
Proof.
  unfold sessionTimerEffect. intro H.
  destruct (JS.truthy _); auto with fresh.
  destruct (isFocused _); auto with fresh.
  match goal with |- context [schedule ?cb ?d ?x] =>
    assert (F : timersFresh (snd (schedule cb d x)))
      by (apply fresh_schedule; auto with fresh);
    destruct (schedule cb d x) end.
  auto with fresh.
Qed.

Lemma fresh_handleFinalSessionEnd p s :
  timersFresh s -> timersFresh (handleFinalSessionEnd p s).
Proof. unfold handleFinalSessionEnd. auto with fresh. Qed.
#[export] Hint Resolve fresh_sessionTimerEffect fresh_handleFinalSessionEnd : fresh.

Lemma fresh_dispatch e s : timersFresh s -> timersFresh (dispatch e s).
Proof.
  intro H. destruct e; cbn [dispatch].
  - unfold videoFetched. auto with fresh.
  - unfold userFetched. destruct (0 <? _)%Z; auto with fresh.
  - unfold handleWebViewMessage.
    repeat match goal with
           | |- timersFresh (match ?x with _ => _ end) => destruct x
           end; auto 7 with fresh.
  - unfold handleSaveAndExit. destruct (_ && _); auto with fresh.
  - unfold handleExtendSession.
    destruct (JS.truthy _); [| destruct (userPrefs s)]; auto with fresh.
  - auto with fresh.
  - unfold onAppStateChange.
    destruct next; auto; destruct (_ && _); auto with fresh;
      destruct (JS.ltb _ _); auto with fresh.
  - unfold updateSettled. destruct ok; [destruct (videoData s) |]; auto with fresh.
  - unfold fire. destruct (findTimer id (timers s)); auto.
    destruct (_ <=? _)%Z; auto. destruct (callback t); auto with fresh.
Qed.

Lemma fresh_commit prev s : timersFresh s -> timersFresh (commit prev s).
Proof.
  intro H. unfold commit, sessionTimerCleanup, appStateCleanup.
  destruct (sessionTimerDepsChanged prev s), (appStateDepsChanged prev s),
    (saveCallbackChanged prev s);
    try destruct (_ && _); auto 8 with fresh.
Qed.

Lemma reachable_fresh s : reachable s -> timersFresh s.
Proof.
  induction 1.
  - constructor.
  - apply fresh_commit, fresh_dispatch, IHreachable.
  - auto with fresh.
Qed.

(** ** Re-rendering *)

Lemma optZ_eqb_refl a : optZ_eqb a a = true.
Proof. destruct a; cbn; auto using Z.eqb_refl. Qed.

(** A task that changed no dependency of any hook runs no effect. *)
Lemma commit_unchanged prev s :
  videoDataRev s = videoDataRev prev ->
  isFocused s = isFocused prev ->
  currentPlaybackTime s = currentPlaybackTime prev ->
  sessionEndTime s = sessionEndTime prev ->
  isPlayerReady s = isPlayerReady prev ->
  commit prev s = s.
Proof.
  intros Hv Hf Hc He Hr.
  unfold commit, sessionTimerDepsChanged, appStateDepsChanged,
    saveCallbackChanged, videoDataChanged, isFocusedChanged,
    currentPlaybackTimeChanged.
  rewrite Hv, Hf, Hc, He, Hr.
  rewrite Nat.eqb_refl, !Bool.eqb_reflx, Qeq_bool_refl, optZ_eqb_refl.
  reflexivity.
Qed.

(** ** [debounce] in closed form *)

Lemma debounce_eq cb delay s :
  debounce cb delay s =
  mkScreen (videoData s) (videoDataRev s) (userPrefs s) (sessionEndTime s)
    (isPlayerReady s) (currentPlaybackTime s) (sessionTimeRemaining s)
    (isFocused s) (webViewRef s) (sessionTimerIntervalRef s)
    (Some (nextTimerId s)) (now s) (S (nextTimerId s))
    (pendingAfterClear s ++ [mkTimer (nextTimerId s) (now s + delay) cb])
    (effects s).
Proof. unfold debounce, pendingAfterClear. destruct (timeoutId s); reflexivity. Qed.

Lemma findTimer_fresh id ts :
  Forall (fun t => (tid t < id)%nat) ts -> findTimer id ts = None.
Proof.
  unfold findTimer. induction 1 as [| t ts Ht _ IH]; cbn; auto.
  replace (Nat.eqb (tid t) id) with false; auto.
  symmetry. apply Nat.eqb_neq. lia.
Qed.

Lemma findTimer_app_new id ts t :
  findTimer id ts = None -> tid t = id -> findTimer id (ts ++ [t]) = Some t.
Proof.
  unfold findTimer. intros H E. induction ts as [| a ts IH]; cbn in *.
  - rewrite E, Nat.eqb_refl. reflexivity.
  - destruct (Nat.eqb (tid a) id); [discriminate | auto].
Qed.


Lemma fresh_pendingAfterClear s :
  timersFresh s -> Forall (fun t => (tid t < nextTimerId s)%nat) (pendingAfterClear s).
Proof.
  intro H. unfold pendingAfterClear. destruct (timeoutId s); auto.
  exact (fresh_cancel (Some n) H).
Qed.

Lemma clearTimer_fresh id ts :
  Forall (fun t => (tid t < id)%nat) ts -> clearTimer id ts = ts.
Proof.
  unfold clearTimer. induction 1 as [| t ts Ht _ IH]; cbn; auto.
  replace (Nat.eqb (tid t) id) with false; [cbn; rewrite IH; auto |].
  symmetry. apply Nat.eqb_neq. lia.
Qed.

Lemma clearTimer_last id ts due cb :
  Forall (fun t => (tid t < id)%nat) ts ->
  clearTimer id (ts ++ [mkTimer id due cb]) = ts.
Proof.
  intro F. unfold clearTimer. rewrite filter_app.
  fold (clearTimer id ts). rewrite (clearTimer_fresh F). cbn.
  rewrite Nat.eqb_refl. cbn. apply app_nil_r.
Qed.

(** [debounce] on its own does coalesce: after any number of calls in a row
    the table holds, besides what it held before, one timeout, with the
    arguments and the time of the last call. *)
Lemma debounce_coalesces render calls : forall s time position,
  timersFresh s ->
  timers (debouncedCalls render (calls ++ [(time, position)]) s)
  = pendingAfterClear s
    ++ [mkTimer (nextTimerId s + length calls) (time + 3000)
          (SaveProgress (videoData render) (isFocused render) position None)].
Proof.
  induction calls as [| [time0 position0] calls IH]; intros s time position F.
  - cbn [app debouncedCalls length]. unfold debouncedSaveProgress.
    rewrite debounce_eq. cbn. rewrite Nat.add_0_r. reflexivity.
  - cbn [app debouncedCalls length]. rewrite IH.
    + unfold debouncedSaveProgress. rewrite debounce_eq.
      unfold pendingAfterClear at 1. cbn [timeoutId timers nextTimerId].
      rewrite clearTimer_last.
      * cbn. rewrite Nat.add_succ_r. reflexivity.
      * exact (fresh_pendingAfterClear (s := setNow time0 s) F).
    + auto with fresh.
Qed.

(** The timeout a call of the debounced function leaves pending. *)
Lemma debounce_pending cb delay s :
  timersFresh s ->
  timeoutId (debounce cb delay s) = Some (nextTimerId s) /\
  findTimer (nextTimerId s) (timers (debounce cb delay s))
    = Some (mkTimer (nextTimerId s) (now s + delay) cb).
Proof.
  intro H. rewrite debounce_eq. cbn. split; auto.
  apply findTimer_app_new; auto.
  apply findTimer_fresh, fresh_pendingAfterClear, H.
Qed.

(** A due save timeout runs the saving function and leaves the table. *)
Lemma step_fire_save id s t video focused position isCompleted :
  findTimer id (timers s) = Some t ->
  callback t = SaveProgress video focused position isCompleted ->
  (due t <= now s)%Z ->
  step (TimerFires id) s =
  saveProgress video focused position isCompleted
    (setTimers (clearTimer id (timers s)) s).
Proof.
  intros F C D. unfold step. cbn [dispatch]. unfold fire.
  rewrite F. apply Z.leb_le in D. rewrite D, C.
  apply commit_unchanged; unfold saveProgress;
    destruct progressToSave; reflexivity.
Qed.

Lemma step_fire_early id s t :
  findTimer id (timers s) = Some t -> (now s < due t)%Z ->
  step (TimerFires id) s = s.
Proof.
  intros F D. unfold step. cbn [dispatch]. unfold fire. rewrite F.
  apply Z.leb_gt in D. rewrite D. apply commit_unchanged; reflexivity.
Qed.

(** ** What re-rendering leaves alone *)

Lemma storeWrites_app l1 l2 : storeWrites (l1 ++ l2) = storeWrites l1 ++ storeWrites l2.
Proof.
  induction l1 as [| e l1 IH]; cbn; auto. destruct e; cbn; rewrite ?IH; auto.
Qed.

Lemma frame_storeWrites s s' :
  frame s s' -> storeWrites (effects s') = storeWrites (effects s).
Proof.
  intros [_ _ _ _ _ _ _ _ _ (l & E & W)].
  rewrite E, storeWrites_app, W. apply app_nil_r.
Qed.

Ltac no_effect := exists []; rewrite app_nil_r; split; reflexivity.

Lemma frame_refl s : frame s s.
Proof. constructor; try reflexivity. no_effect. Qed.

Lemma frame_trans s1 s2 s3 : frame s1 s2 -> frame s2 s3 -> frame s1 s3.
Proof.
  intros [? ? ? ? ? ? ? ? ? (l & E & W)] [? ? ? ? ? ? ? ? ? (l' & E' & W')].
  constructor; try (etransitivity; eassumption).
  exists (l ++ l'). rewrite E', E, app_assoc, storeWrites_app, W, W'. auto.
Qed.

Lemma frame_cancel id s : frame s (cancel id s).
Proof. destruct id; constructor; try reflexivity; no_effect. Qed.

Lemma frame_debounce cb delay s : frame s (debounce cb delay s).
Proof. rewrite debounce_eq. constructor; try reflexivity; no_effect. Qed.

Lemma frame_updateTimer e c s : frame s (updateTimer e c s).
Proof.
  unfold updateTimer. set (s1 := setSessionTimeRemaining _ s).
  assert (F1 : frame s s1) by (constructor; try reflexivity; no_effect).
  destruct (_ <=? 0)%Z; auto. destruct (webViewRef s1).
  - eapply frame_trans; [| apply frame_cancel].
    eapply frame_trans; [exact F1 |].
    constructor; try reflexivity. eexists; split; reflexivity.
  - eapply frame_trans; [exact F1 | apply frame_cancel].
Qed.

Lemma timeoutId_cancel id s : timeoutId (cancel id s) = timeoutId s.
Proof. destruct id; reflexivity. Qed.

Lemma timeoutId_updateTimer e c s : timeoutId (updateTimer e c s) = timeoutId s.
Proof.
  unfold updateTimer.
  destruct (_ <=? 0)%Z; [destruct (webViewRef _) |];
    rewrite ?timeoutId_cancel; reflexivity.
Qed.

Lemma frame_sessionTimerEffect s : frame s (sessionTimerEffect s).
Proof.
  unfold sessionTimerEffect.
  pose proof (frame_cancel (sessionTimerIntervalRef s) s) as C.
  set (s1 := cancel (sessionTimerIntervalRef s) s) in *.
  destruct (JS.truthy (sessionEndTime s1)) as [endTime |]; auto.
  destruct (isFocused s1); auto.
  pose proof (frame_updateTimer endTime (currentPlaybackTime s1) s1) as U.
  set (s2 := updateTimer endTime (currentPlaybackTime s1) s1) in *.
  apply (frame_trans C). apply (frame_trans U).
  constructor; try reflexivity. no_effect.
Qed.

Lemma timeoutId_sessionTimerEffect s :
  timeoutId (sessionTimerEffect s) = timeoutId s.
Proof.
  unfold sessionTimerEffect.
  destruct (JS.truthy _); [destruct (isFocused _) |];
    cbn; rewrite ?timeoutId_updateTimer, ?timeoutId_cancel; reflexivity.
Qed.

Lemma frame_commit prev s : frame s (commit prev s).
Proof.
  unfold commit, sessionTimerCleanup, appStateCleanup, debouncedSaveProgress.
  set (s1 := if sessionTimerDepsChanged prev s then _ else s).
  assert (F1 : frame s s1).
  { subst s1. destruct (sessionTimerDepsChanged prev s);
      auto using frame_refl, frame_cancel. }
  set (s2 := if appStateDepsChanged prev s then _ else s1).
  assert (F2 : frame s s2).
  { subst s2. destruct (appStateDepsChanged prev s); auto.
    destruct (_ && _); auto. eapply frame_trans; [exact F1 | apply frame_debounce]. }
  set (s3 := if saveCallbackChanged prev s then _ else s2).
  assert (F3 : frame s s3).
  { subst s3. destruct (saveCallbackChanged prev s); auto.
    eapply frame_trans; [exact F2 | constructor; try reflexivity; no_effect]. }
  destruct (sessionTimerDepsChanged prev s); auto.
  eapply frame_trans; [exact F3 | apply frame_sessionTimerEffect].
Qed.

(** ** Numbers *)

Section Numbers.
Local Open Scope Q_scope.

Lemma ltb_lt x y : JS.ltb x y = true <-> x < y.
Proof.
  unfold JS.ltb. rewrite negb_true_iff. split; intro H.
  - apply Qnot_le_lt. intro L. apply Qle_bool_iff in L. congruence.
  - destruct (Qle_bool y x) eqn:E; auto. apply Qle_bool_iff in E. lra.
Qed.

Lemma toFixed1_comp x y : x == y -> JS.toFixed1 x = JS.toFixed1 y.
Proof.
  intro E. unfold JS.toFixed1, JS.ltb. rewrite E.
  destruct (Qle_bool 0 y); cbn [negb].
  - f_equal. apply Qfloor_comp. rewrite E. reflexivity.
  - f_equal. f_equal. apply Qfloor_comp. rewrite E. reflexivity.
Qed.




Lemma min_comp a x y : x == y -> Qmin a x == Qmin a y.
Proof. intro E. rewrite E. reflexivity. Qed.

Lemma duration_nonzero d : ~ d == 0 -> Qeq_bool d 0 = false.
Proof.
  intro H. destruct (Qeq_bool d 0) eqn:E; auto.
  apply Qeq_bool_eq in E. contradiction.
Qed.

End Numbers.

(** ** Saves *)

Lemma step_ended t s :
  step (stateChange YTPlayerState.ENDED t) s = debouncedSaveProgress s t (Some true) s.
Proof.
  change (commit s (debouncedSaveProgress s t (Some true) s)
          = debouncedSaveProgress s t (Some true) s).
  apply commit_unchanged;
    unfold debouncedSaveProgress; rewrite debounce_eq; reflexivity.
Qed.

(** A save requested in [s], left alone until the clock reads [t], then run. *)
Lemma save_runs position isCompleted s s1 t :
  timersFresh s ->
  timers s1 = timers (debouncedSaveProgress s position isCompleted s) ->
  (now s + 3000 <= t)%Z ->
  step (TimerFires (nextTimerId s)) (setNow t s1) =
  saveProgress (videoData s) (isFocused s) position isCompleted
    (setTimers (clearTimer (nextTimerId s) (timers s1)) (setNow t s1)).
Proof.
  intros F E T.
  destruct (debounce_pending
              (SaveProgress (videoData s) (isFocused s) position isCompleted)
              3000 F) as [_ P].
  assert (P' : findTimer (nextTimerId s) (timers (setNow t s1)) =
               Some (mkTimer (nextTimerId s) (now s + 3000)
                       (SaveProgress (videoData s) (isFocused s) position isCompleted))).
  { cbn [timers setNow]. rewrite E. exact P. }
  exact (step_fire_save (nextTimerId s) (setNow t s1) P' eq_refl T).
Qed.

(** C7.  A video of 600 seconds, the player reports ENDED at 595 seconds and
    nothing else happens until the debounce timeout runs: the store receives
    lastPosition 595, completionPercentage 99.2, completed true. *)
Theorem C7_ended_at_595_of_600 : forall s v t,
  reachable s ->
  videoData s = Some v -> (duration v == 600)%Q -> isFocused s = true ->
  (now s + 3000 <= t)%Z ->
  let s1 := step (stateChange YTPlayerState.ENDED 595) s in
  exists id,
    timeoutId s1 = Some id /\
    effects (step (TimerFires id) (setNow t s1)) =
    effects s ++
      [StoreUpdate {| lastPosition := 595;
                      completionPercentage := 99.2;
                      completed := true;
                      lastUpdated := t |}].
Proof.
  intros s v t R V D Foc T s1. subst s1. rewrite step_ended.
  apply reachable_fresh in R.
  exists (nextTimerId s). split.
  - unfold debouncedSaveProgress. rewrite debounce_eq. reflexivity.
  - rewrite (save_runs 595 (Some true) _ R eq_refl T).
    unfold saveProgress, progressToSave. rewrite V, Foc.
    rewrite duration_nonzero by (rewrite D; discriminate).
    cbn [orb negb]. unfold debouncedSaveProgress. rewrite debounce_eq. cbn.
    do 3 f_equal. unfold newProgress. f_equal.
    unfold JS.min.
    rewrite (toFixed1_comp (x := Qmin 100 (595 / duration v * 100))
                           (y := Qmin 100 (595 / 600 * 100))).
    + reflexivity.
    + apply min_comp. rewrite D. reflexivity.
Qed.

Lemma C7_witness :
  exists id,
    timeoutId (step (stateChange YTPlayerState.ENDED 595)
                 (session (freshVideo 600) (Some 30%Z) 0)) = Some id /\
    effects (step (TimerFires id)
               (setNow 3000 (step (stateChange YTPlayerState.ENDED 595)
                               (session (freshVideo 600) (Some 30%Z) 0)))) =
    effects (session (freshVideo 600) (Some 30%Z) 0) ++
      [StoreUpdate {| lastPosition := 595;
                      completionPercentage := 99.2;
                      completed := true;
                      lastUpdated := 3000 |}].
Proof.
  apply (@C7_ended_at_595_of_600 (session (freshVideo 600) (Some 30%Z) 0)
           (freshVideo 600) 3000%Z).
  - unfold session. repeat constructor.
  - reflexivity.
  - reflexivity.
  - reflexivity.
  - cbn. lia.
Defined.

(** The same from the loaded screen, the interval of the session timer
    ticking meanwhile. *)
Example ended_at_595_scenario :
  exists s',
    run 8 [Do (stateChange YTPlayerState.ENDED 595); Wait 3000]
        (session (freshVideo 600) (Some 30%Z) 0) = Some s' /\
    storeWrites (effects s')
    = [{| lastPosition := 595; completionPercentage := 99.2;
          completed := true; lastUpdated := 3000 |}].
Proof. eexists. split; [vm_compute; reflexivity | reflexivity]. Qed.





Lemma step_final_session_end e s position :
  dispatch e s = handleFinalSessionEnd position s ->
  step e s = handleFinalSessionEnd position s.
Proof.
  intro E. unfold step. rewrite E. apply commit_unchanged;
    unfold handleFinalSessionEnd, debouncedSaveProgress;
    rewrite debounce_eq; reflexivity.
Qed.





(** ** Extending the session *)

Lemma truthy_idle e : JS.truthy e = None -> e = None \/ e = Some 0%Z.
Proof. destruct e as [[| p | p] |]; cbn; intro H; auto; discriminate. Qed.

Lemma truthy_running e x : JS.truthy e = Some x -> e = Some x /\ x <> 0%Z.
Proof.
  destruct e as [[| p | p] |]; cbn; intro H; inversion H; subst;
    split; auto; discriminate.
Qed.




Lemma timeoutId_commit prev s :
  appStateDepsChanged prev s = false ->
  timeoutId (commit prev s) = timeoutId s.
Proof.
  intro A. unfold commit. rewrite A.
  unfold appStateDepsChanged in A. apply orb_false_elim in A.
  destruct A as [_ A]. rewrite A.
  destruct (sessionTimerDepsChanged prev s); auto.
  rewrite timeoutId_sessionTimerEffect. apply timeoutId_cancel.
Qed.

(** C6.  Extending a running timer moves [sessionEndTime] forward by exactly
    300 seconds and leaves the playback position, the video record with its
    progress, the player and preference state, the pending debounced save
    and the store alone. *)
Theorem C6_extend_running_adds_300_seconds : forall s e,
  JS.truthy (sessionEndTime s) = Some e ->
  let s' := step ExtendSession s in
  sessionEndTime s' = Some (e + 300 * 1000)%Z /\
  (e < e + 300 * 1000)%Z /\
  currentPlaybackTime s' = currentPlaybackTime s /\
  videoData s' = videoData s /\
  videoDataRev s' = videoDataRev s /\
  isPlayerReady s' = isPlayerReady s /\
  userPrefs s' = userPrefs s /\
  isFocused s' = isFocused s /\
  timeoutId s' = timeoutId s /\
  storeWrites (effects s') = storeWrites (effects s).
Proof.
  intros s e Run s'.
  assert (D : dispatch ExtendSession s =
              emit (Alert SessionExtended)
                (setSessionEndTime (Some (e + 300 * 1000)%Z) s)).
  { cbn. unfold handleExtendSession. rewrite Run. reflexivity. }
  pose proof (frame_commit s (dispatch ExtendSession s)) as F.
  pose proof (frame_storeWrites F) as W.
  fold (step ExtendSession s) in F, W. fold s' in F, W.
  destruct F as [F1 F2 F3 F4 F5 F6 F7 F8 F9 _].
  rewrite D in *. cbn in F1, F2, F3, F4, F5, F6, F7.
  repeat split; auto; try lia.
  - unfold s', step. rewrite timeoutId_commit; rewrite D; [reflexivity |].
    unfold appStateDepsChanged, saveCallbackChanged, videoDataChanged,
      isFocusedChanged, currentPlaybackTimeChanged. cbn.
    rewrite Nat.eqb_refl, !Bool.eqb_reflx, Qeq_bool_refl. reflexivity.
  - rewrite W. cbn [effects emit setSessionEndTime].
    rewrite storeWrites_app. apply app_nil_r.
Qed.

Lemma C6_witness :
  let s := session (freshVideo 600) (Some 30%Z) 0 in
  let s' := step ExtendSession s in
  sessionEndTime s' = Some (1800000 + 300 * 1000)%Z /\
  (1800000 < 1800000 + 300 * 1000)%Z /\
  currentPlaybackTime s' = currentPlaybackTime s /\
  videoData s' = videoData s /\
  videoDataRev s' = videoDataRev s /\
  isPlayerReady s' = isPlayerReady s /\
  userPrefs s' = userPrefs s /\
  isFocused s' = isFocused s /\
  timeoutId s' = timeoutId s /\
  storeWrites (effects s') = storeWrites (effects s).
Proof.
  apply (@C6_extend_running_adds_300_seconds
           (session (freshVideo 600) (Some 30%Z) 0) 1800000%Z).
  reflexivity.
Defined.

(** ** Malformed messages *)

(** C9.  A payload on which [JSON.parse] throws is logged and ignored: the
    handler returns normally, the state, the timers and the store are as
    before, and the only effect is the error log. *)
Theorem C9_malformed_message_ignored : forall s,
  let s' := step (Message None) s in
  s' = emit (ConsoleError ErrorParsingWebViewMessage) s /\
  effects s' = effects s ++ [ConsoleError ErrorParsingWebViewMessage] /\
  storeWrites (effects s') = storeWrites (effects s) /\
  timers s' = timers s /\ timeoutId s' = timeoutId s /\
  videoData s' = videoData s /\
  currentPlaybackTime s' = currentPlaybackTime s /\
  isPlayerReady s' = isPlayerReady s /\
  sessionEndTime s' = sessionEndTime s.
Proof.
  intros s s'.
  assert (E : s' = emit (ConsoleError ErrorParsingWebViewMessage) s).
  { unfold s', step. cbn [dispatch handleWebViewMessage].
    apply commit_unchanged; reflexivity. }
  rewrite E. repeat split.
  cbn. rewrite storeWrites_app. apply app_nil_r.
Qed.

(** ** The guard of the debounced save *)

Lemma progressToSave_guard video focused position isCompleted t :
  progressToSave video focused position isCompleted t =
  if saveAllowed video focused
  then match video with
       | Some v => Some (newProgress (duration v) position isCompleted t)
       | None => None
       end
  else None.
Proof.
  unfold progressToSave, saveAllowed. destruct video as [v |]; auto.
  destruct (Qeq_bool (duration v) 0), focused; reflexivity.
Qed.

Lemma saveAllowed_false video focused :
  saveAllowed video focused = false <->
  video = None \/ (exists v, video = Some v /\ (duration v == 0)%Q) \/ focused = false.
Proof.
  unfold saveAllowed. destruct video as [v |]; split; intro H; auto.
  - apply andb_false_iff in H. destruct H as [H | H]; auto.
    right. left. exists v. split; auto.
    apply negb_false_iff, Qeq_bool_eq in H. exact H.
  - destruct H as [H | [(v' & E & D) | H]].
    + discriminate.
    + inversion E; subst. apply Qeq_eq_bool in D. rewrite D. reflexivity.
    + rewrite H. apply andb_false_r.
Qed.

(** C8, as the code has it.  The guard reads the [videoData] and [isFocused]
    the debounced function captured, those of the render in which the save
    was requested.  If then the record was missing, its duration 0 or the
    screen unfocused, the timeout runs as a no-op: it leaves the table and
    nothing else changes, also for the saves of ENDED and of termination.
    Otherwise it writes, whether or not the screen is focused when it
    runs. *)
Theorem C8_guard_reads_captured_values :
  (forall s id t video focused position isCompleted,
     findTimer id (timers s) = Some t ->
     callback t = SaveProgress video focused position isCompleted ->
     (due t <= now s)%Z ->
     let s' := step (TimerFires id) s in
     (saveAllowed video focused = false ->
        s' = setTimers (clearTimer id (timers s)) s /\ effects s' = effects s) /\
     (saveAllowed video focused = true ->
        exists p, effects s' = effects s ++ [StoreUpdate p])) /\
  (forall s position t,
     reachable s -> (now s + 3000 <= t)%Z ->
     saveAllowed (videoData s) (isFocused s) = false ->
     let ended := step (stateChange YTPlayerState.ENDED position) s in
     let final := step (Message (Some (mkMessage SESSION_END_REQUEST
                                         (Some position) None None))) s in
     effects (step (TimerFires (nextTimerId s)) (setNow t ended)) = effects s /\
     effects (step (TimerFires (nextTimerId s)) (setNow t final))
       = effects s ++ [Alert SessionEnded]).
Proof.
  split.
  - intros s id t video focused position isCompleted F C D s'.
    unfold s'. rewrite (step_fire_save id s F C D).
    unfold saveProgress. rewrite progressToSave_guard. split; intro G; rewrite G.
    + split; reflexivity.
    + destruct video as [v |]; [| discriminate]. eexists. reflexivity.
  - intros s position t R T G ended final.
    apply reachable_fresh in R. split.
    + unfold ended. rewrite step_ended.
      rewrite (@save_runs position (Some true) s _ t R eq_refl T).
      unfold saveProgress. rewrite progressToSave_guard, G.
      unfold debouncedSaveProgress. rewrite debounce_eq. reflexivity.
    + unfold final.
      rewrite (@step_final_session_end
                 (Message (Some (mkMessage SESSION_END_REQUEST
                                   (Some position) None None)))
                 s position eq_refl).
      unfold handleFinalSessionEnd.
      match goal with |- context [debouncedSaveProgress s position ?f s] =>
        rewrite (@save_runs position f s
                   (emit (Alert SessionEnded) (debouncedSaveProgress s position f s))
                   t R eq_refl T)
      end.
      unfold saveProgress. rewrite progressToSave_guard, G.
      unfold debouncedSaveProgress. rewrite debounce_eq. reflexivity.
Qed.

Lemma C8_witness :
  let s := session (freshVideo 0) (Some 30%Z) 0 in
  let ended := step (stateChange YTPlayerState.ENDED 5) s in
  let final := step (Message (Some (mkMessage SESSION_END_REQUEST
                                      (Some 5%Q) None None))) s in
  let paused := setNow 3000 (step (stateChange YTPlayerState.PAUSED 10)
                               (session (freshVideo 600) (Some 30%Z) 0)) in
  (effects (step (TimerFires (nextTimerId s)) (setNow 3000 ended)) = effects s /\
   effects (step (TimerFires (nextTimerId s)) (setNow 3000 final))
     = effects s ++ [Alert SessionEnded]) /\
  exists p, effects (step (TimerFires 2) paused) = effects paused ++ [StoreUpdate p].
Proof.
  split.
  - apply (proj2 C8_guard_reads_captured_values
             (session (freshVideo 0) (Some 30%Z) 0) 5%Q 3000%Z).
    + unfold session. repeat constructor.
    + cbn. lia.
    + reflexivity.
  - refine (proj2 (proj1 C8_guard_reads_captured_values
                     (setNow 3000 (step (stateChange YTPlayerState.PAUSED 10)
                                     (session (freshVideo 600) (Some 30%Z) 0)))
                     2%nat
                     (mkTimer 2 3000
                        (SaveProgress (Some (freshVideo 600)) true 10 None))
                     (Some (freshVideo 600)) true 10%Q None _ _ _) _).
    + reflexivity.
    + reflexivity.
    + cbn. lia.
    + reflexivity.
Defined.

(** C8, as stated, fails.  A save requested by PAUSED on the focused screen;
    the screen loses focus one second later; when the debounce window closes
    the screen is not focused and the write is issued all the same. *)
Lemma C8_counterexample :
  exists s1 s2 p,
    run 8 [Do (stateChange YTPlayerState.PAUSED 10); Wait 1000;
           Do (FocusChange false)]
        (session (freshVideo 600) (Some 30%Z) 0) = Some s1 /\
    isFocused s1 = false /\ storeWrites (effects s1) = [] /\
    run 8 [Wait 2000] s1 = Some s2 /\
    isFocused s2 = false /\ storeWrites (effects s2) = [p].
Proof.
  do 3 eexists. split; [vm_compute; reflexivity |].
  split; [reflexivity |]. split; [reflexivity |].
  split; [vm_compute; reflexivity |]. split; reflexivity.
Qed.

(** ** Only a save timeout writes to the store *)

Lemma quiet_refl s : quiet s s.
Proof. exists []. rewrite app_nil_r. split; reflexivity. Qed.

Lemma quiet_frame s x y : frame x y -> quiet s x -> quiet s y.
Proof.
  intros F (l & E & W). destruct (fr_effects F) as (l' & E' & W').
  exists (l ++ l'). rewrite E', E, app_assoc, storeWrites_app, W, W'. auto.
Qed.

Lemma quiet_same s x y : effects y = effects x -> quiet s x -> quiet s y.
Proof. intros E (l & X & W). exists l. rewrite E. auto. Qed.

Lemma quiet_inject s x j : quiet s x -> quiet s (emit (InjectJavaScript j) x).
Proof.
  intros (l & E & W). exists (l ++ [InjectJavaScript j]). cbn.
  rewrite E, app_assoc, storeWrites_app, W. auto.
Qed.

Lemma quiet_alert s x a : quiet s x -> quiet s (emit (Alert a) x).
Proof.
  intros (l & E & W). exists (l ++ [Alert a]). cbn.
  rewrite E, app_assoc, storeWrites_app, W. auto.
Qed.

Lemma quiet_error s x a : quiet s x -> quiet s (emit (ConsoleError a) x).
Proof.
  intros (l & E & W). exists (l ++ [ConsoleError a]). cbn.
  rewrite E, app_assoc, storeWrites_app, W. auto.
Qed.

Lemma quiet_debouncedSaveProgress s x r p c :
  quiet s x -> quiet s (debouncedSaveProgress r p c x).
Proof. apply quiet_frame, frame_debounce. Qed.

Lemma quiet_handleFinalSessionEnd s p :
  quiet s (handleFinalSessionEnd p s).
Proof.
  unfold handleFinalSessionEnd.
  apply quiet_alert, quiet_debouncedSaveProgress, quiet_refl.
Qed.

Create HintDb quiet.
Lemma quiet_setVideoData s x v : quiet s x -> quiet s (setVideoData v x).
Proof. exact (fun H => H). Qed.
Lemma quiet_setUserPrefs s x v : quiet s x -> quiet s (setUserPrefs v x).
Proof. exact (fun H => H). Qed.
Lemma quiet_setSessionEndTime s x v : quiet s x -> quiet s (setSessionEndTime v x).
Proof. exact (fun H => H). Qed.
Lemma quiet_setIsPlayerReady s x v : quiet s x -> quiet s (setIsPlayerReady v x).
Proof. exact (fun H => H). Qed.
Lemma quiet_setCurrentPlaybackTime s x v : quiet s x -> quiet s (setCurrentPlaybackTime v x).
Proof. exact (fun H => H). Qed.
Lemma quiet_setSessionTimeRemaining s x v : quiet s x -> quiet s (setSessionTimeRemaining v x).
Proof. exact (fun H => H). Qed.
Lemma quiet_setIsFocused s x v : quiet s x -> quiet s (setIsFocused v x).
Proof. exact (fun H => H). Qed.
Lemma quiet_setWebViewRef s x v : quiet s x -> quiet s (setWebViewRef v x).
Proof. exact (fun H => H). Qed.
Lemma quiet_setSessionTimerIntervalRef s x v : quiet s x -> quiet s (setSessionTimerIntervalRef v x).
Proof. exact (fun H => H). Qed.
Lemma quiet_setTimeoutId s x v : quiet s x -> quiet s (setTimeoutId v x).
Proof. exact (fun H => H). Qed.
Lemma quiet_setNow s x v : quiet s x -> quiet s (setNow v x).
Proof. exact (fun H => H). Qed.
Lemma quiet_setTimers s x v : quiet s x -> quiet s (setTimers v x).
Proof. exact (fun H => H). Qed.
#[export] Hint Resolve quiet_setVideoData quiet_setUserPrefs quiet_setSessionEndTime quiet_setIsPlayerReady quiet_setCurrentPlaybackTime quiet_setSessionTimeRemaining quiet_setIsFocused quiet_setWebViewRef quiet_setSessionTimerIntervalRef quiet_setTimeoutId quiet_setNow quiet_setTimers : quiet.
#[export] Hint Resolve quiet_refl quiet_inject quiet_alert quiet_error
  quiet_debouncedSaveProgress quiet_handleFinalSessionEnd : quiet.

Lemma quiet_storeWrites s s' :
  quiet s s' -> storeWrites (effects s') = storeWrites (effects s).
Proof. intros (l & E & W). rewrite E, storeWrites_app, W. apply app_nil_r. Qed.

Lemma dispatch_writes e s :
  quiet s (dispatch e s) \/
  exists video focused position isCompleted p,
    progressToSave video focused position isCompleted (now s) = Some p /\
    storeWrites (effects (dispatch e s)) = storeWrites (effects s) ++ [p].
Proof.
  destruct e; cbn [dispatch].
  - left. unfold videoFetched. auto with quiet.
  - left. unfold userFetched. destruct (0 <? _)%Z; auto with quiet.
  - left. unfold handleWebViewMessage.
    repeat match goal with
           | |- quiet _ (match ?x with _ => _ end) => destruct x
           end; auto with quiet.
  - left. unfold handleSaveAndExit. destruct (_ && _); auto with quiet.
  - left. unfold handleExtendSession.
    destruct (JS.truthy _); [| destruct (userPrefs s)]; auto with quiet.
  - left. auto with quiet.
  - left. unfold onAppStateChange.
    destruct next; auto with quiet; destruct (_ && _); auto with quiet;
      destruct (JS.ltb _ _); auto with quiet.
  - left. unfold updateSettled.
    destruct ok; [destruct (videoData s) |]; auto with quiet.
  - unfold fire. destruct (findTimer id (timers s)) as [t |]; auto with quiet.
    destruct (_ <=? _)%Z; auto with quiet.
    destruct (callback t) as [video focused position isCompleted | endTime c].
    + unfold saveProgress. cbn [now setTimers].
      destruct (progressToSave video focused position isCompleted (now s))
        as [p |] eqn:P.
      * right. exists video, focused, position, isCompleted, p. split; auto.
        cbn. apply storeWrites_app.
      * left. auto with quiet.
    + left. apply quiet_setTimers.
      eapply quiet_frame; [apply frame_updateTimer | apply quiet_refl].
Qed.

Section Rounding.
Local Open Scope Q_scope.



End Rounding.




Lemma reachable_session v preference t0 : reachable (session v preference t0).
Proof. unfold session. repeat constructor. Qed.



(** ** The interval handle is an identifier already handed out *)

Create HintDb ref.

Lemma ref_cancel id s : refFresh s -> refFresh (cancel id s).
Proof. destruct id; exact (fun H => H). Qed.

Lemma ref_debounce cb delay s : refFresh s -> refFresh (debounce cb delay s).
Proof.
  rewrite debounce_eq. unfold refFresh. cbn. intros H i E.
  specialize (H i E). lia.
Qed.

Lemma ref_setVideoData v s : refFresh s -> refFresh (setVideoData v s).
Proof. exact (fun H => H). Qed.
Lemma ref_setUserPrefs v s : refFresh s -> refFresh (setUserPrefs v s).
Proof. exact (fun H => H). Qed.
Lemma ref_setSessionEndTime v s : refFresh s -> refFresh (setSessionEndTime v s).
Proof. exact (fun H => H). Qed.
Lemma ref_setIsPlayerReady v s : refFresh s -> refFresh (setIsPlayerReady v s).
Proof. exact (fun H => H). Qed.
Lemma ref_setCurrentPlaybackTime v s : refFresh s -> refFresh (setCurrentPlaybackTime v s).
Proof. exact (fun H => H). Qed.
Lemma ref_setSessionTimeRemaining v s : refFresh s -> refFresh (setSessionTimeRemaining v s).
Proof. exact (fun H => H). Qed.
Lemma ref_setIsFocused v s : refFresh s -> refFresh (setIsFocused v s).
Proof. exact (fun H => H). Qed.
Lemma ref_setWebViewRef v s : refFresh s -> refFresh (setWebViewRef v s).
Proof. exact (fun H => H). Qed.
Lemma ref_setTimeoutId v s : refFresh s -> refFresh (setTimeoutId v s).
Proof. exact (fun H => H). Qed.
Lemma ref_setNow v s : refFresh s -> refFresh (setNow v s).
Proof. exact (fun H => H). Qed.
Lemma ref_setTimers v s : refFresh s -> refFresh (setTimers v s).
Proof. exact (fun H => H). Qed.
Lemma ref_emit v s : refFresh s -> refFresh (emit v s).
Proof. exact (fun H => H). Qed.

#[export] Hint Resolve ref_cancel ref_debounce ref_setVideoData
  ref_setUserPrefs ref_setSessionEndTime ref_setIsPlayerReady
  ref_setCurrentPlaybackTime ref_setSessionTimeRemaining ref_setIsFocused
  ref_setWebViewRef ref_setTimeoutId ref_setNow ref_setTimers ref_emit : ref.

Lemma ref_debouncedSaveProgress r p c s :
  refFresh s -> refFresh (debouncedSaveProgress r p c s).
Proof. unfold debouncedSaveProgress. auto with ref. Qed.

Lemma ref_saveProgress v f p c s : refFresh s -> refFresh (saveProgress v f p c s).
Proof. unfold saveProgress. destruct progressToSave; auto with ref. Qed.

Lemma ref_updateTimer e c s : refFresh s -> refFresh (updateTimer e c s).
Proof.
  unfold updateTimer. intro H.
  destruct (_ <=? 0)%Z; [destruct (webViewRef _) |]; auto 7 with ref.
Qed.
#[export] Hint Resolve ref_debouncedSaveProgress ref_saveProgress
  ref_updateTimer : ref.

Lemma ref_sessionTimerEffect s : refFresh s -> refFresh (sessionTimerEffect s).
Proof.
  unfold sessionTimerEffect. intro H.
  destruct (JS.truthy _); auto with ref.
  destruct (isFocused _); auto with ref.
  unfold refFresh. cbn. intros i E. inversion E; subst. lia.
Qed.

Lemma ref_handleFinalSessionEnd p s :
  refFresh s -> refFresh (handleFinalSessionEnd p s).
Proof. unfold handleFinalSessionEnd. auto with ref. Qed.
#[export] Hint Resolve ref_sessionTimerEffect ref_handleFinalSessionEnd : ref.

Lemma ref_dispatch e s : refFresh s -> refFresh (dispatch e s).
Proof.
  intro H. destruct e; cbn [dispatch].
  - unfold videoFetched. auto with ref.
  - unfold userFetched. destruct (0 <? _)%Z; auto with ref.
  - unfold handleWebViewMessage.
    repeat match goal with
           | |- refFresh (match ?x with _ => _ end) => destruct x
           end; auto 7 with ref.
  - unfold handleSaveAndExit. destruct (_ && _); auto with ref.
  - unfold handleExtendSession.
    destruct (JS.truthy _); [| destruct (userPrefs s)]; auto with ref.
  - auto with ref.
  - unfold onAppStateChange.
    destruct next; auto; destruct (_ && _); auto with ref;
      destruct (JS.ltb _ _); auto with ref.
  - unfold updateSettled. destruct ok; [destruct (videoData s) |]; auto with ref.
  - unfold fire. destruct (findTimer id (timers s)); auto.
    destruct (_ <=? _)%Z; auto. destruct (callback t); auto with ref.
Qed.

Lemma ref_commit prev s : refFresh s -> refFresh (commit prev s).
Proof.
  intro H. unfold commit, sessionTimerCleanup, appStateCleanup.
  destruct (sessionTimerDepsChanged prev s), (appStateDepsChanged prev s),
    (saveCallbackChanged prev s);
    try destruct (_ && _); auto 8 with ref.
Qed.

Lemma reachable_ref s : reachable s -> refFresh s.
Proof.
  induction 1.
  - intros i E. discriminate.
  - apply ref_commit, ref_dispatch, IHreachable.
  - auto with ref.
Qed.

(** ** A time update after another *)

Lemma findTimer_clear_other id i ts :
  id <> i -> findTimer id (clearTimer i ts) = findTimer id ts.
Proof.
  intro N. unfold findTimer, clearTimer.
  induction ts as [| a ts IH]; cbn; auto.
  destruct (Nat.eqb (tid a) i) eqn:E; cbn.
  - apply Nat.eqb_eq in E.
    replace (Nat.eqb (tid a) id) with false; auto.
    symmetry. apply Nat.eqb_neq. congruence.
  - destruct (Nat.eqb (tid a) id); auto.
Qed.

Lemma findTimer_cancel_other id r s :
  (forall i, r = Some i -> id <> i) ->
  findTimer id (timers (cancel r s)) = findTimer id (timers s).
Proof.
  intro N. destruct r as [i |]; auto.
  apply findTimer_clear_other, N. reflexivity.
Qed.

Lemma findTimer_app_old id ts t u :
  findTimer id ts = Some t -> findTimer id (ts ++ [u]) = Some t.
Proof.
  unfold findTimer. induction ts as [| a ts IH]; cbn; [discriminate |].
  destruct (Nat.eqb (tid a) id); auto.
Qed.

Lemma timers_updateTimer e c s :
  timers (updateTimer e c s) = timers s \/
  timers (updateTimer e c s) = timers (cancel (sessionTimerIntervalRef s) s).
Proof.
  unfold updateTimer. destruct (_ <=? 0)%Z; auto.
  right. destruct (webViewRef _);
    cbn [sessionTimerIntervalRef emit setSessionTimeRemaining];
    destruct (sessionTimerIntervalRef s); reflexivity.
Qed.

(** The session timer effect keeps every timer but the interval of its
    ref. *)
Lemma findTimer_sessionTimerEffect id s t :
  (forall i, sessionTimerIntervalRef s = Some i -> id <> i) ->
  findTimer id (timers s) = Some t ->
  findTimer id (timers (sessionTimerEffect s)) = Some t.
Proof.
  intros N F. unfold sessionTimerEffect.
  set (s1 := cancel (sessionTimerIntervalRef s) s).
  assert (F1 : findTimer id (timers s1) = Some t).
  { unfold s1. rewrite findTimer_cancel_other; auto. }
  assert (R1 : sessionTimerIntervalRef s1 = sessionTimerIntervalRef s).
  { unfold s1. generalize (sessionTimerIntervalRef s) at 1.
    intros [i |]; reflexivity. }
  destruct (JS.truthy (sessionEndTime s1)) as [endTime |]; auto.
  destruct (isFocused s1); auto.
  cbn [schedule timers setSessionTimerIntervalRef].
  apply findTimer_app_old.
  destruct (timers_updateTimer endTime (currentPlaybackTime s1) s1) as [E | E];
    rewrite E; auto.
  rewrite findTimer_cancel_other; auto. rewrite R1. exact N.
Qed.

Lemma cancel_keeps id s :
  sessionTimerIntervalRef (cancel id s) = sessionTimerIntervalRef s /\
  nextTimerId (cancel id s) = nextTimerId s /\
  now (cancel id s) = now s.
Proof. destruct id; repeat split. Qed.

(** The defect behind C2, in general.  Whenever a TIME_UPDATE changes a
    positive [currentPlaybackTime] of a loaded video, the timeout left
    pending for the debounced save carries the position of the previous
    render, not the one of the message. *)
Lemma timeUpdate_leaves_previous_position s v t :
  reachable s -> videoData s = Some v ->
  (0 < currentPlaybackTime s)%Q -> ~ (currentPlaybackTime s == t)%Q ->
  let s' := step (timeUpdate t) s in
  exists id,
    timeoutId s' = Some id /\
    findTimer id (timers s')
    = Some (mkTimer id (now s + 3000)
              (SaveProgress (videoData s) (isFocused s) (currentPlaybackTime s) None)).
Proof.
  intros R V P N s'.
  pose proof (reachable_fresh R) as F. pose proof (reachable_ref R) as RF.
  set (a := debouncedSaveProgress s t None (setCurrentPlaybackTime t s)).
  assert (D : dispatch (timeUpdate t) s = a) by reflexivity.
  assert (Ct : currentPlaybackTimeChanged s a = true).
  { unfold currentPlaybackTimeChanged, a, debouncedSaveProgress.
    rewrite debounce_eq. cbn.
    destruct (Qeq_bool (currentPlaybackTime s) t) eqn:E; auto.
    apply Qeq_bool_eq in E. contradiction. }
  assert (Cb : saveCallbackChanged s a = false).
  { unfold saveCallbackChanged, videoDataChanged, isFocusedChanged, a,
      debouncedSaveProgress. rewrite debounce_eq. cbn.
    rewrite Nat.eqb_refl, Bool.eqb_reflx. reflexivity. }
  assert (E : s' = sessionTimerEffect
                     (debouncedSaveProgress s (currentPlaybackTime s) None
                        (sessionTimerCleanup a))).
  { unfold s', step. rewrite D. unfold commit, sessionTimerDepsChanged,
      appStateDepsChanged, appStateCleanup.
    rewrite Ct, Cb, V. apply ltb_lt in P. rewrite P.
    rewrite !orb_true_r. reflexivity. }
  set (b := sessionTimerCleanup a) in E.
  assert (Fb : timersFresh b).
  { unfold b, sessionTimerCleanup, a. auto with fresh. }
  destruct (cancel_keeps (sessionTimerIntervalRef a) a) as (Rb & Lb & Nb).
  fold (sessionTimerCleanup a) in Rb, Lb, Nb. fold b in Rb, Lb, Nb.
  assert (Ea : sessionTimerIntervalRef a = sessionTimerIntervalRef s /\
               nextTimerId a = S (nextTimerId s) /\ now a = now s).
  { unfold a, debouncedSaveProgress. rewrite debounce_eq. repeat split. }
  destruct Ea as (Ra & La & Na).
  rewrite Ra in Rb. rewrite La in Lb. rewrite Na in Nb.
  destruct (debounce_pending
              (SaveProgress (videoData s) (isFocused s) (currentPlaybackTime s) None)
              3000 Fb) as [T1 T2].
  exists (nextTimerId b). rewrite E. split.
  - rewrite timeoutId_sessionTimerEffect. exact T1.
  - rewrite <- Nb. apply findTimer_sessionTimerEffect; [| exact T2].
    unfold debouncedSaveProgress. rewrite debounce_eq. cbn [sessionTimerIntervalRef].
    rewrite Rb. intros i Hi X. specialize (RF i Hi). lia.
Qed.

Lemma cancel_eq id s :
  cancel id s =
  setTimers (match id with
             | Some i => clearTimer i (timers s)
             | None => timers s
             end) s.
Proof. destruct id; [reflexivity | destruct s; reflexivity]. Qed.

Lemma sessionEndRequests_app l1 l2 :
  sessionEndRequests (l1 ++ l2) = sessionEndRequests l1 ++ sessionEndRequests l2.
Proof.
  induction l1 as [| e l1 IH]; cbn; auto.
  destruct e as [p | [t | t |] | a | a]; cbn; rewrite ?IH; auto.
Qed.

(** The effect run on a session whose time is up injects the request. *)
Lemma sessionTimerEffect_expired s e :
  JS.truthy (sessionEndTime s) = Some e ->
  isFocused s = true -> webViewRef s = true ->
  ((e - now s) / 1000 <= 0)%Z ->
  effects (sessionTimerEffect s)
  = effects s ++ [InjectJavaScript (PostSessionEndRequest (currentPlaybackTime s))].
Proof.
  intros T Foc W X. unfold sessionTimerEffect.
  rewrite cancel_eq. cbn [sessionEndTime isFocused setTimers currentPlaybackTime].
  rewrite T, Foc. unfold updateTimer. cbn [now setTimers].
  replace (Z.max 0 ((e - now s) / 1000)) with 0%Z by lia.
  cbn [Z.leb Z.compare webViewRef setSessionTimeRemaining setTimers].
  rewrite W, cancel_eq. reflexivity.
Qed.

(** The defect behind C3, in general.  Once the session time is up, every
    TIME_UPDATE that changes [currentPlaybackTime] injects the request to
    end the session again, whether or not it was injected before, and leaves
    an interval running. *)
Lemma timeUpdate_after_expiry_signals_again s e t :
  JS.truthy (sessionEndTime s) = Some e ->
  isFocused s = true -> webViewRef s = true ->
  ((e - now s) / 1000 <= 0)%Z ->
  ~ (currentPlaybackTime s == t)%Q ->
  sessionEndRequests (effects (step (timeUpdate t) s))
  = sessionEndRequests (effects s) ++ [t].
Proof.
  intros T Foc W X N.
  set (a := debouncedSaveProgress s t None (setCurrentPlaybackTime t s)).
  assert (Ct : currentPlaybackTimeChanged s a = true).
  { unfold currentPlaybackTimeChanged, a, debouncedSaveProgress.
    rewrite debounce_eq. cbn.
    destruct (Qeq_bool (currentPlaybackTime s) t) eqn:E; auto.
    apply Qeq_bool_eq in E. contradiction. }
  assert (Cb : saveCallbackChanged s a = false).
  { unfold saveCallbackChanged, videoDataChanged, isFocusedChanged, a,
      debouncedSaveProgress. rewrite debounce_eq. cbn.
    rewrite Nat.eqb_refl, Bool.eqb_reflx. reflexivity. }
  unfold step. change (dispatch (timeUpdate t) s) with a.
  unfold commit, sessionTimerDepsChanged, appStateDepsChanged.
  rewrite Ct, Cb, !orb_true_r. cbn [orb].
  set (b := appStateCleanup s (sessionTimerCleanup a)).
  assert (B : sessionEndTime b = sessionEndTime s /\ isFocused b = isFocused s /\
              webViewRef b = webViewRef s /\ now b = now s /\
              currentPlaybackTime b = t /\ effects b = effects s).
  { unfold b, appStateCleanup, sessionTimerCleanup, a, debouncedSaveProgress.
    destruct (_ && _); rewrite ?debounce_eq, ?cancel_eq; repeat split. }
  destruct B as (B1 & B2 & B3 & B4 & B5 & B6).
  rewrite (@sessionTimerEffect_expired b e); rewrite ?B1, ?B2, ?B3, ?B4; auto.
  rewrite B5, B6, sessionEndRequests_app. reflexivity.
Qed.

(** ** The session timer *)

Lemma remaining_updateTimer endTime c s :
  sessionTimeRemaining (updateTimer endTime c s)
  = Z.max 0 ((endTime - now s) / 1000).
Proof.
  assert (C : forall id x, sessionTimeRemaining (cancel id x) = sessionTimeRemaining x)
    by (intros [i |] x; reflexivity).
  unfold updateTimer. destruct (_ <=? 0)%Z; [destruct (webViewRef _) |];
    rewrite ?C; reflexivity.
Qed.

(** On every tick the remaining time is computed anew from the clock. *)
Lemma tick_recomputes_remaining id s t endTime c :
  findTimer id (timers s) = Some t ->
  callback t = UpdateTimer endTime c ->
  (due t <= now s)%Z ->
  sessionTimeRemaining (step (TimerFires id) s)
  = Z.max 0 ((endTime - now s) / 1000).
Proof.
  intros F C D. unfold step. cbn [dispatch]. unfold fire.
  rewrite F. apply Z.leb_le in D. rewrite D, C.
  pose proof (frame_updateTimer endTime c s) as [? ? ? ? ? ? ? ? ? ?].
  rewrite commit_unchanged; auto.
  apply remaining_updateTimer.
Qed.

(** C3 fails on the code.  A one-minute session, the video playing: the
    timer expires at the tick of 60 s and injects the request to end the
    session; the TIME_UPDATE that arrives half a second later re-runs the
    effect, which injects the request again and starts a new interval, whose
    first tick injects it a third time, all with the same [sessionEndTime]. *)
Theorem C3_expiry_signalled_again :
  exists s1 s2,
    run 100 [Wait 60000] (session (freshVideo 600) (Some 1%Z) 0) = Some s1 /\
    sessionEndTime s1 = Some 60000%Z /\
    sessionEndRequests (effects s1) = [0%Q] /\
    timers s1 = [] /\
    run 100 [Wait 500; Do (timeUpdate 7); Wait 1000] s1 = Some s2 /\
    sessionEndTime s2 = Some 60000%Z /\
    sessionEndRequests (effects s2) = [0%Q; 7%Q; 7%Q].
Proof.
  do 2 eexists. split; [vm_compute; reflexivity |].
  split; [reflexivity |]. split; [reflexivity |]. split; [reflexivity |].
  split; [vm_compute; reflexivity |]. split; reflexivity.
Qed.

(** ** Debounced time updates *)

(** C2 fails on the code.  Two TIME_UPDATE messages one second apart, 5 then
    6: after the second, the clean-up of the AppState effect calls the
    debounced save with the position of the previous render, so the one
    write of the window carries 5, not 6. *)
Theorem C2_stale_position_written :
  exists s1 s2 p,
    run 16 [Do (timeUpdate 5); Wait 1000; Do (timeUpdate 6)]
        (session (freshVideo 600) (Some 30%Z) 0) = Some s1 /\
    (currentPlaybackTime s1 == 6)%Q /\
    findTimer 5 (timers s1)
      = Some (mkTimer 5 4000 (SaveProgress (Some (freshVideo 600)) true 5 None)) /\
    timeoutId s1 = Some 5%nat /\
    run 16 [Wait 3000] s1 = Some s2 /\
    storeWrites (effects s2) = [p] /\
    (lastPosition p == 5)%Q /\ ~ (lastPosition p == 6)%Q.
Proof.
  do 3 eexists. split; [vm_compute; reflexivity |].
  split; [reflexivity |]. split; [reflexivity |]. split; [reflexivity |].
  split; [vm_compute; reflexivity |]. split; [reflexivity |].
  split; [reflexivity | discriminate].
Qed.

(** What follows: once the store acknowledges that write, [setVideoData]
    re-renders, the same clean-up calls the debounced save of the previous
    render again, and a second write, with 6, is issued three seconds
    later. *)
Lemma acknowledged_write_is_repeated :
  exists s1 s2 p5 p6,
    run 16 [Do (timeUpdate 5); Wait 1000; Do (timeUpdate 6); Wait 3000]
        (session (freshVideo 600) (Some 30%Z) 0) = Some s1 /\
    storeWrites (effects s1) = [p5] /\
    run 16 [Do (UpdateSettled true p5); Wait 3000] s1 = Some s2 /\
    storeWrites (effects s2) = [p5; p6] /\
    (lastPosition p6 == 6)%Q.
Proof.
  do 4 eexists. split; [vm_compute; reflexivity |].
  split; [reflexivity |]. split; [vm_compute; reflexivity |].
  split; reflexivity.
Qed.


(** ** The countdown interval: one at most, owned by the ref, current *)

Lemma filter_filter {A} (f g : A -> bool) l :
  filter f (filter g l) = filter (fun x => g x && f x) l.
Proof.
  induction l as [| a l IH]; cbn; auto.
  destruct (g a); cbn; [destruct (f a) |]; rewrite IH; reflexivity.
Qed.

Lemma filter_comm {A} (f g : A -> bool) l :
  filter f (filter g l) = filter g (filter f l).
Proof.
  rewrite !filter_filter. apply filter_ext. intro a. apply andb_comm.
Qed.

Lemma map_filter_key {A B} (k : A -> B) (f : B -> bool) l :
  map k (filter (fun x => f (k x)) l) = filter f (map k l).
Proof.
  induction l as [| a l IH]; cbn; auto.
  destruct (f (k a)); cbn; rewrite IH; reflexivity.
Qed.

Lemma length_filter_le {A} (f : A -> bool) l : (length (filter f l) <= length l)%nat.
Proof.
  induction l as [| a l IH]; cbn; auto. destruct (f a); cbn; lia.
Qed.

Lemma shrinks_refl s : shrinks s s.
Proof.
  split; auto. exists (fun _ => true).
  induction (intervalKeys s) as [| a l IH]; cbn; congruence.
Qed.

Lemma shrinks_trans s1 s2 s3 : shrinks s1 s2 -> shrinks s2 s3 -> shrinks s1 s3.
Proof.
  intros [R1 (f & E1)] [R2 (g & E2)]. split; [congruence |].
  exists (fun x => f x && g x). rewrite E2, E1. apply filter_filter.
Qed.

Lemma intervalKeys_clear i ts s :
  timers s = ts ->
  forall s', timers s' = clearTimer i ts ->
  intervalKeys s' = filter (fun k => negb (Nat.eqb (fst k) i)) (intervalKeys s).
Proof.
  intros E s' E'. unfold intervalKeys. rewrite E', E. unfold clearTimer.
  rewrite filter_comm.
  apply (map_filter_key (fun t => (tid t, callback t))
           (fun k => negb (Nat.eqb (fst k) i))).
Qed.

Lemma shrinks_cancel id s : shrinks s (cancel id s).
Proof.
  destruct id as [i |]; [| apply shrinks_refl].
  split; auto. eexists. apply (@intervalKeys_clear i (timers s) s eq_refl).
  reflexivity.
Qed.

Lemma intervalKeys_app_save s ts v f p c id due :
  timers s = ts ++ [mkTimer id due (SaveProgress v f p c)] ->
  intervalKeys s = map (fun t => (tid t, callback t)) (filter isInterval ts).
Proof.
  intro E. unfold intervalKeys. rewrite E, filter_app. cbn. rewrite app_nil_r.
  reflexivity.
Qed.

Lemma shrinks_debouncedSaveProgress r p c s :
  shrinks s (debouncedSaveProgress r p c s).
Proof.
  unfold debouncedSaveProgress. rewrite debounce_eq. split; auto.
  erewrite intervalKeys_app_save by reflexivity.
  unfold pendingAfterClear. destruct (timeoutId s) as [i |].
  - eexists. apply (@intervalKeys_clear i (timers s) s eq_refl (setTimers (clearTimer i (timers s)) s)).
    reflexivity.
  - apply shrinks_refl.
Qed.

Create HintDb shrink.

Lemma shrinks_step_cancel s x id : shrinks s x -> shrinks s (cancel id x).
Proof. intro H. eapply shrinks_trans; [exact H | apply shrinks_cancel]. Qed.

Lemma shrinks_step_save s x r p c :
  shrinks s x -> shrinks s (debouncedSaveProgress r p c x).
Proof.
  intro H. eapply shrinks_trans; [exact H | apply shrinks_debouncedSaveProgress].
Qed.

Lemma shrinks_setVideoData s x v : shrinks s x -> shrinks s (setVideoData v x).
Proof. exact (fun H => H). Qed.
Lemma shrinks_setUserPrefs s x v : shrinks s x -> shrinks s (setUserPrefs v x).
Proof. exact (fun H => H). Qed.
Lemma shrinks_setSessionEndTime s x v : shrinks s x -> shrinks s (setSessionEndTime v x).
Proof. exact (fun H => H). Qed.
Lemma shrinks_setIsPlayerReady s x v : shrinks s x -> shrinks s (setIsPlayerReady v x).
Proof. exact (fun H => H). Qed.
Lemma shrinks_setCurrentPlaybackTime s x v :
  shrinks s x -> shrinks s (setCurrentPlaybackTime v x).
Proof. exact (fun H => H). Qed.
Lemma shrinks_setSessionTimeRemaining s x v :
  shrinks s x -> shrinks s (setSessionTimeRemaining v x).
Proof. exact (fun H => H). Qed.
Lemma shrinks_setIsFocused s x v : shrinks s x -> shrinks s (setIsFocused v x).
Proof. exact (fun H => H). Qed.
Lemma shrinks_setWebViewRef s x v : shrinks s x -> shrinks s (setWebViewRef v x).
Proof. exact (fun H => H). Qed.
Lemma shrinks_setTimeoutId s x v : shrinks s x -> shrinks s (setTimeoutId v x).
Proof. exact (fun H => H). Qed.
Lemma shrinks_setNow s x v : shrinks s x -> shrinks s (setNow v x).
Proof. exact (fun H => H). Qed.
Lemma shrinks_emit s x v : shrinks s x -> shrinks s (emit v x).
Proof. exact (fun H => H). Qed.

#[export] Hint Resolve shrinks_refl shrinks_step_cancel shrinks_step_save
  shrinks_setVideoData shrinks_setUserPrefs shrinks_setSessionEndTime
  shrinks_setIsPlayerReady shrinks_setCurrentPlaybackTime
  shrinks_setSessionTimeRemaining shrinks_setIsFocused shrinks_setWebViewRef
  shrinks_setTimeoutId shrinks_setNow shrinks_emit : shrink.

Lemma shrinks_saveProgress s x v f p c :
  shrinks s x -> shrinks s (saveProgress v f p c x).
Proof. unfold saveProgress. destruct progressToSave; auto with shrink. Qed.

Lemma shrinks_updateTimer s x e c : shrinks s x -> shrinks s (updateTimer e c x).
Proof.
  unfold updateTimer. intro H.
  destruct (_ <=? 0)%Z; [destruct (webViewRef _) |]; auto 7 with shrink.
Qed.

Lemma shrinks_handleFinalSessionEnd s p : shrinks s (handleFinalSessionEnd p s).
Proof. unfold handleFinalSessionEnd. auto with shrink. Qed.
#[export] Hint Resolve shrinks_saveProgress shrinks_updateTimer
  shrinks_handleFinalSessionEnd : shrink.

Lemma intervalKeys_rearm id due s :
  intervalKeys (setTimers (rearm id due (timers s)) s) = intervalKeys s.
Proof.
  unfold intervalKeys, rearm. cbn [timers setTimers].
  induction (timers s) as [| [i d cb] l IH]; cbn; auto.
  destruct (Nat.eqb i id); destruct cb; unfold isInterval; cbn;
    fold isInterval; rewrite ?IH; reflexivity.
Qed.

Lemma shrinks_rearm s x id due :
  shrinks s x -> shrinks s (setTimers (rearm id due (timers x)) x).
Proof.
  intros [R (f & E)]. split; auto. exists f. rewrite intervalKeys_rearm. exact E.
Qed.

Lemma shrinks_clear s x id :
  shrinks s x -> shrinks s (setTimers (clearTimer id (timers x)) x).
Proof. intro H. exact (shrinks_step_cancel (Some id) H). Qed.
#[export] Hint Resolve shrinks_rearm shrinks_clear : shrink.

(** No handler starts an interval or touches the ref. *)
Lemma shrinks_dispatch e s : shrinks s (dispatch e s).
Proof.
  destruct e; cbn [dispatch].
  - unfold videoFetched. auto with shrink.
  - unfold userFetched. destruct (0 <? _)%Z; auto with shrink.
  - unfold handleWebViewMessage.
    repeat match goal with
           | |- shrinks _ (match ?x with _ => _ end) => destruct x
           end; auto 7 with shrink.
  - unfold handleSaveAndExit. destruct (_ && _); auto with shrink.
  - unfold handleExtendSession.
    destruct (JS.truthy _); [| destruct (userPrefs s)]; auto with shrink.
  - auto with shrink.
  - unfold onAppStateChange.
    destruct next; auto with shrink; destruct (_ && _); auto with shrink;
      destruct (JS.ltb _ _); auto with shrink.
  - unfold updateSettled. destruct ok; [destruct (videoData s) |]; auto with shrink.
  - unfold fire. destruct (findTimer id (timers s)); auto with shrink.
    destruct (_ <=? _)%Z; auto with shrink.
    destruct (callback t); auto with shrink.
Qed.

Lemma owned_shrinks s s' : shrinks s s' -> intervalsOwned s -> intervalsOwned s'.
Proof.
  intros [R (f & E)] [O L]. split.
  - intros i cb H. rewrite E in H. apply filter_In in H. rewrite R.
    eapply O, H.
  - rewrite E. etransitivity; [apply length_filter_le | exact L].
Qed.

Lemma filter_none {A} (f : A -> bool) l :
  (forall x, In x l -> f x = false) -> filter f l = [].
Proof.
  induction l as [| a l IH]; cbn; auto. intro H.
  rewrite (H a) by auto. apply IH. intros x X. apply H. auto.
Qed.

(** Clearing the handle of the ref leaves no interval. *)
Lemma cancel_ref_no_interval s :
  intervalsOwned s -> intervalKeys (cancel (sessionTimerIntervalRef s) s) = [].
Proof.
  intros [O L]. destruct (sessionTimerIntervalRef s) as [i |] eqn:R.
  - cbn [cancel].
    rewrite (@intervalKeys_clear i (timers s) s eq_refl
               (setTimers (clearTimer i (timers s)) s) eq_refl).
    apply filter_none. intros [j cb] H. cbn. specialize (O j cb H).
    inversion O; subst. rewrite Nat.eqb_refl. reflexivity.
  - cbn [cancel]. destruct (intervalKeys s) as [| [j cb] l] eqn:K; auto.
    specialize (O j cb (or_introl eq_refl)). discriminate.
Qed.

Lemma shrinks_none s s' : shrinks s s' -> intervalKeys s = [] -> intervalKeys s' = [].
Proof. intros [_ (f & E)] K. rewrite E, K. reflexivity. Qed.


Lemma optZ_eqb_eq a b : optZ_eqb a b = true -> a = b.
Proof.
  destruct a, b; cbn; intro H; try discriminate; auto.
  apply Z.eqb_eq in H. congruence.
Qed.

Lemma intervalKeys_schedule_interval s e c :
  intervalKeys (snd (schedule (UpdateTimer e c) 1000 s))
  = intervalKeys s ++ [(nextTimerId s, UpdateTimer e c)].
Proof.
  unfold intervalKeys, schedule. cbn [snd timers].
  rewrite filter_app, map_app. reflexivity.
Qed.

Lemma no_interval_invariant s :
  intervalKeys s = [] -> intervalsOwned s /\ intervalCurrent s.
Proof.
  intro K. unfold intervalsOwned, intervalCurrent. rewrite K.
  split; [split |]; cbn; [intros ? ? [] | lia | intros ? ? []].
Qed.

(** What the effect leaves when it starts from a table without interval:
    none, or the one it has just set, which the ref holds and whose closure
    has the values of this render. *)
Lemma sessionTimerEffect_interval s :
  intervalKeys s = [] ->
  intervalsOwned (sessionTimerEffect s) /\ intervalCurrent (sessionTimerEffect s).
Proof.
  intro K. pose proof (frame_sessionTimerEffect s) as F.
  unfold sessionTimerEffect in *.
  set (s1 := cancel (sessionTimerIntervalRef s) s) in *.
  assert (K1 : intervalKeys s1 = []).
  { eapply shrinks_none; [apply shrinks_cancel | exact K]. }
  assert (F1 : frame s s1) by apply frame_cancel.
  destruct (JS.truthy (sessionEndTime s1)) as [endTime |] eqn:T.
  2:{ apply no_interval_invariant, K1. }
  destruct (isFocused s1) eqn:Foc.
  2:{ apply no_interval_invariant, K1. }
  set (s2 := updateTimer endTime (currentPlaybackTime s1) s1) in *.
  assert (K2 : intervalKeys s2 = []).
  { eapply shrinks_none; [| exact K1]. apply shrinks_updateTimer, shrinks_refl. }
  cbn [schedule] in *.
  match goal with |- intervalsOwned ?r /\ _ =>
    assert (KR : intervalKeys r
                 = [(nextTimerId s2, UpdateTimer endTime (currentPlaybackTime s1))])
  end.
  { unfold intervalKeys in *. cbn [timers setSessionTimerIntervalRef].
    rewrite filter_app, map_app, K2. reflexivity. }
  split; [split |].
  - rewrite KR. intros i cb [H | []]. inversion H; subst. reflexivity.
  - rewrite KR. cbn. lia.
  - intros i cb H. rewrite KR in H. destruct H as [H | []]. inversion H; subst.
    rewrite (fr_isFocused F), (fr_sessionEndTime F), (fr_currentPlaybackTime F).
    rewrite <- (fr_isFocused F1), <- (fr_sessionEndTime F1),
      <- (fr_currentPlaybackTime F1).
    split; auto. exists endTime, (currentPlaybackTime s1).
    repeat split; auto; try reflexivity.
Qed.

Lemma shrinks_appStateCleanup render s : shrinks s (appStateCleanup render s).
Proof. unfold appStateCleanup. destruct (_ && _); auto with shrink. Qed.

(** Every step keeps the interval unique, owned by the ref and current. *)
Lemma step_interval e s :
  intervalsOwned s -> intervalCurrent s ->
  intervalsOwned (step e s) /\ intervalCurrent (step e s).
Proof.
  intros O C. unfold step.
  pose proof (shrinks_dispatch e s) as Sa.
  pose proof (frame_commit s (dispatch e s)) as F.
  set (a := dispatch e s) in *.
  pose proof (owned_shrinks Sa O) as Oa.
  unfold commit in *.
  destruct (sessionTimerDepsChanged s a) eqn:T.
  - apply sessionTimerEffect_interval.
    eapply shrinks_none with (s := sessionTimerCleanup a).
    + destruct (appStateDepsChanged s a), (saveCallbackChanged s a);
        auto using shrinks_appStateCleanup with shrink.
    + apply cancel_ref_no_interval, Oa.
  - match goal with |- intervalsOwned ?x /\ _ => set (r := x) in * end.
    assert (Sr : shrinks a r).
    { subst r. destruct (appStateDepsChanged s a), (saveCallbackChanged s a);
        auto using shrinks_appStateCleanup with shrink. }
    pose proof (shrinks_trans Sa Sr) as S.
    split; [exact (owned_shrinks S O) |].
    intros i cb H. destruct S as [_ (f & E)]. rewrite E in H.
    apply filter_In in H. destruct H as [H _].
    destruct (C i cb H) as (Foc & endTime & c & Ecb & Et & Ec).
    unfold sessionTimerDepsChanged, isFocusedChanged,
      currentPlaybackTimeChanged in T.
    apply orb_false_elim in T. destruct T as [T Tc].
    apply orb_false_elim in T. destruct T as [Te Tf].
    apply negb_false_iff, optZ_eqb_eq in Te.
    apply negb_false_iff, Bool.eqb_prop in Tf.
    apply negb_false_iff, Qeq_bool_eq in Tc.
    rewrite (fr_isFocused F), (fr_sessionEndTime F), (fr_currentPlaybackTime F).
    rewrite <- Te, <- Tf. split; auto.
    exists endTime, c. repeat split; auto.
    rewrite Ec. exact Tc.
Qed.

Lemma reachable_interval s : reachable s -> intervalsOwned s /\ intervalCurrent s.
Proof.
  induction 1 as [t0 | e s R [O C] | t s R [O C] L].
  - apply no_interval_invariant. reflexivity.
  - apply step_interval; auto.
  - split; [exact O | exact C].
Qed.


Lemma intervalKeys_nil_filter s :
  intervalKeys s = [] -> filter isInterval (timers s) = [].
Proof.
  unfold intervalKeys. destruct (filter isInterval (timers s)); cbn; congruence.
Qed.

Lemma interval_key s t e c :
  In t (timers s) -> callback t = UpdateTimer e c ->
  In (tid t, UpdateTimer e c) (intervalKeys s).
Proof.
  intros H C. unfold intervalKeys. rewrite <- C.
  apply (in_map (fun t => (tid t, callback t))).
  apply filter_In. split; auto. unfold isInterval. rewrite C. reflexivity.
Qed.

Lemma interval_owned s t :
  reachable s -> In t (timers s) -> isInterval t = true ->
  sessionTimerIntervalRef s = Some (tid t).
Proof.
  intros R H I. destruct (reachable_interval R) as [[O _] _].
  unfold isInterval in I.
  destruct (callback t) as [| e c] eqn:C; [discriminate |].
  exact (O _ _ (interval_key s t H C)).
Qed.

(** The screen never has two countdown intervals: in every reachable state
    at most one interval is pending, and it is the one whose handle
    [sessionTimerIntervalRef] holds. *)
Theorem interval_unique_and_owned : forall s,
  reachable s ->
  (length (filter isInterval (timers s)) <= 1)%nat /\
  forall t, In t (timers s) -> isInterval t = true ->
    sessionTimerIntervalRef s = Some (tid t).
Proof.
  intros s R. destruct (reachable_interval R) as [[O L] _]. split.
  - unfold intervalKeys in L. rewrite length_map in L. exact L.
  - intros t H I. apply interval_owned; assumption.
Qed.

(** The countdown only ticks for a focused screen with a session end time,
    and the pending tick was created by the current render: it holds the
    current [sessionEndTime] and the current playback position.  So no
    interval is pending while the screen is unfocused or the timer idle. *)
Theorem interval_only_while_focused_and_running : forall s,
  reachable s ->
  (forall t endTime playbackTime,
     In t (timers s) -> callback t = UpdateTimer endTime playbackTime ->
     isFocused s = true /\
     JS.truthy (sessionEndTime s) = Some endTime /\
     (playbackTime == currentPlaybackTime s)%Q) /\
  (isFocused s = false \/ JS.truthy (sessionEndTime s) = None ->
   filter isInterval (timers s) = []).
Proof.
  intros s R. destruct (reachable_interval R) as [_ C].
  assert (A : forall t endTime playbackTime,
             In t (timers s) -> callback t = UpdateTimer endTime playbackTime ->
             isFocused s = true /\
             JS.truthy (sessionEndTime s) = Some endTime /\
             (playbackTime == currentPlaybackTime s)%Q).
  { intros t e c H Cb.
    destruct (C _ _ (interval_key s t H Cb)) as (Foc & e' & c' & E & T & Q).
    inversion E; subst. auto. }
  split; [exact A |].
  intro H. destruct (filter isInterval (timers s)) as [| t l] eqn:F; auto.
  assert (I : In t (filter isInterval (timers s))) by (rewrite F; left; auto).
  apply filter_In in I. destruct I as [I B]. unfold isInterval in B.
  destruct (callback t) as [| e c] eqn:Cb; [discriminate |].
  destruct (A t e c I Cb) as (Foc & T & _).
  destruct H as [H | H]; congruence.
Qed.

Lemma findTimer_In id ts t : findTimer id ts = Some t -> In t ts /\ tid t = id.
Proof.
  unfold findTimer. intro H. apply find_some in H. destruct H as [H E].
  apply Nat.eqb_eq in E. auto.
Qed.

Lemma findTimer_rearm id d ts t :
  findTimer id ts = Some t ->
  findTimer id (rearm id d ts) = Some (mkTimer (tid t) d (callback t)).
Proof.
  unfold findTimer, rearm. induction ts as [| a l IH]; cbn; [discriminate |].
  destruct (Nat.eqb (tid a) id) eqn:E; cbn; rewrite E.
  - intro H. inversion H; subst. reflexivity.
  - exact IH.
Qed.

(** A tick before the time is up only refreshes the countdown and is armed
    again one second later; the tick that finds the time up injects one
    request to end the session, with the position its closure captured, and
    leaves no interval behind. *)
Theorem tick_counts_down_or_expires : forall s id t endTime playbackTime,
  reachable s ->
  findTimer id (timers s) = Some t ->
  callback t = UpdateTimer endTime playbackTime ->
  (due t <= now s)%Z ->
  let s' := step (TimerFires id) s in
  let remaining := ((endTime - now s) / 1000)%Z in
  ((0 < remaining)%Z ->
     sessionTimeRemaining s' = remaining /\
     effects s' = effects s /\
     findTimer id (timers s')
     = Some (mkTimer id (now s + 1000) (UpdateTimer endTime playbackTime))) /\
  ((remaining <= 0)%Z ->
     sessionTimeRemaining s' = 0%Z /\
     effects s'
     = effects s ++ (if webViewRef s
                     then [InjectJavaScript (PostSessionEndRequest playbackTime)]
                     else []) /\
     filter isInterval (timers s') = []).
Proof.
  intros s id t e c R F C D s' remaining.
  destruct (findTimer_In _ _ F) as [I Tid].
  assert (Ref : sessionTimerIntervalRef s = Some id).
  { rewrite <- Tid. apply interval_owned; auto.
    unfold isInterval. rewrite C. reflexivity. }
  assert (E : s' = setTimers (rearm id (now s + 1000) (timers (updateTimer e c s)))
                     (updateTimer e c s)).
  { unfold s', step. cbn [dispatch]. unfold fire.
    rewrite F. apply Z.leb_le in D. rewrite D, C.
    pose proof (frame_updateTimer e c s) as [? ? ? ? ? ? ? ? ? ?].
    apply commit_unchanged; auto. }
  split; intro H.
  - assert (U : updateTimer e c s = setSessionTimeRemaining remaining s).
    { unfold updateTimer. fold remaining.
      replace (Z.max 0 remaining) with remaining by lia.
      destruct (remaining <=? 0)%Z eqn:L; auto. apply Z.leb_le in L. lia. }
    rewrite E, U. repeat split.
    cbn [timers setTimers setSessionTimeRemaining].
    rewrite (@findTimer_rearm id (now s + 1000) (timers s) t F), Tid, C.
    reflexivity.
  - set (x := if webViewRef s
              then emit (InjectJavaScript (PostSessionEndRequest c))
                     (setSessionTimeRemaining 0 s)
              else setSessionTimeRemaining 0 s).
    assert (U : updateTimer e c s = cancel (Some id) x).
    { unfold updateTimer. fold remaining.
      replace (Z.max 0 remaining) with 0%Z by lia. cbn [Z.leb Z.compare].
      cbv zeta. cbn [webViewRef setSessionTimeRemaining]. fold x.
      replace (sessionTimerIntervalRef x) with (Some id); auto.
      rewrite <- Ref. unfold x. destruct (webViewRef s); reflexivity. }
    assert (Sx : shrinks s x).
    { unfold x. destruct (webViewRef s); auto with shrink. }
    rewrite E, U. repeat split.
    + unfold x. destruct (webViewRef s); reflexivity.
    + unfold x. destruct (webViewRef s); cbn; rewrite ?app_nil_r; reflexivity.
    + apply intervalKeys_nil_filter. rewrite intervalKeys_rearm.
      replace (Some id) with (sessionTimerIntervalRef x)
        by (rewrite (proj1 Sx); exact Ref).
      apply cancel_ref_no_interval.
      exact (owned_shrinks Sx (proj1 (reachable_interval R))).
Qed.


(** ** The countdown follows the clock *)

Lemma commit_reruns_timer prev a :
  sessionTimerDepsChanged prev a = true ->
  exists x, commit prev a = sessionTimerEffect x /\ frame a x.
Proof.
  intro T. unfold commit. rewrite T. eexists. split; [reflexivity |].
  assert (F1 : frame a (sessionTimerCleanup a)) by apply frame_cancel.
  set (s1 := sessionTimerCleanup a) in *.
  set (s2 := if appStateDepsChanged prev a then appStateCleanup prev s1 else s1).
  assert (F2 : frame a s2).
  { subst s2. destruct (appStateDepsChanged prev a); auto.
    unfold appStateCleanup, debouncedSaveProgress. destruct (_ && _); auto.
    eapply frame_trans; [exact F1 | apply frame_debounce]. }
  destruct (saveCallbackChanged prev a); auto.
  eapply frame_trans; [exact F2 | constructor; try reflexivity; no_effect].
Qed.

Lemma remaining_sessionTimerEffect s e :
  JS.truthy (sessionEndTime s) = Some e -> isFocused s = true ->
  sessionTimeRemaining (sessionTimerEffect s) = Z.max 0 ((e - now s) / 1000).
Proof.
  intros T Foc. unfold sessionTimerEffect. rewrite cancel_eq.
  cbn [sessionEndTime isFocused setTimers currentPlaybackTime].
  rewrite T, Foc. cbn [schedule sessionTimeRemaining setSessionTimerIntervalRef].
  rewrite remaining_updateTimer. reflexivity.
Qed.

(** When the screen regains focus, and when a running session is extended on
    a focused screen, the displayed remaining time is computed at once from
    the clock and the end time: time spent unfocused is not lost and an
    extension shows immediately. *)
Theorem remaining_follows_clock : forall s e,
  JS.truthy (sessionEndTime s) = Some e ->
  (isFocused s = false ->
   sessionTimeRemaining (step (FocusChange true) s)
   = Z.max 0 ((e - now s) / 1000)) /\
  (isFocused s = true -> (0 < e)%Z ->
   sessionTimeRemaining (step ExtendSession s)
   = Z.max 0 ((e + 300000 - now s) / 1000)).
Proof.
  intros s e T. split.
  - intro Foc. unfold step. cbn [dispatch].
    destruct (@commit_reruns_timer s (setIsFocused true s)) as (x & E & F).
    { unfold sessionTimerDepsChanged, isFocusedChanged. cbn. rewrite Foc.
      cbn. rewrite orb_true_r. reflexivity. }
    rewrite E. rewrite (@remaining_sessionTimerEffect x e).
    + rewrite (fr_now F). reflexivity.
    + rewrite (fr_sessionEndTime F). exact T.
    + rewrite (fr_isFocused F). reflexivity.
  - intros Foc NZ. unfold step. cbn [dispatch]. unfold handleExtendSession.
    rewrite T.
    set (a := emit (Alert SessionExtended)
                (setSessionEndTime (Some (e + 5 * 60 * 1000)%Z) s)).
    destruct (@commit_reruns_timer s a) as (x & E & F).
    { unfold sessionTimerDepsChanged. cbn.
      apply truthy_running in T. destruct T as [T _]. rewrite T. cbn.
      replace (e =? e + 300000)%Z with false; auto.
      symmetry. apply Z.eqb_neq. lia. }
    rewrite E. rewrite (@remaining_sessionTimerEffect x (e + 300000)).
    + rewrite (fr_now F). reflexivity.
    + rewrite (fr_sessionEndTime F). cbn.
      destruct (e + 300000)%Z eqn:X; auto. lia.
    + rewrite (fr_isFocused F). exact Foc.
Qed.


(** ** The countdown is never negative *)

Create HintDb remaining.

Lemma remaining_cancel id s : remainingNonneg s -> remainingNonneg (cancel id s).
Proof. destruct id; exact (fun H => H). Qed.

Lemma remaining_debounce cb delay s :
  remainingNonneg s -> remainingNonneg (debounce cb delay s).
Proof. rewrite debounce_eq. exact (fun H => H). Qed.

Lemma remaining_setVideoData v s : remainingNonneg s -> remainingNonneg (setVideoData v s).
Proof. exact (fun H => H). Qed.
Lemma remaining_setUserPrefs v s : remainingNonneg s -> remainingNonneg (setUserPrefs v s).
Proof. exact (fun H => H). Qed.
Lemma remaining_setSessionEndTime v s : remainingNonneg s -> remainingNonneg (setSessionEndTime v s).
Proof. exact (fun H => H). Qed.
Lemma remaining_setIsPlayerReady v s : remainingNonneg s -> remainingNonneg (setIsPlayerReady v s).
Proof. exact (fun H => H). Qed.
Lemma remaining_setCurrentPlaybackTime v s : remainingNonneg s -> remainingNonneg (setCurrentPlaybackTime v s).
Proof. exact (fun H => H). Qed.
Lemma remaining_setIsFocused v s : remainingNonneg s -> remainingNonneg (setIsFocused v s).
Proof. exact (fun H => H). Qed.
Lemma remaining_setWebViewRef v s : remainingNonneg s -> remainingNonneg (setWebViewRef v s).
Proof. exact (fun H => H). Qed.
Lemma remaining_setSessionTimerIntervalRef v s : remainingNonneg s -> remainingNonneg (setSessionTimerIntervalRef v s).
Proof. exact (fun H => H). Qed.
Lemma remaining_setTimeoutId v s : remainingNonneg s -> remainingNonneg (setTimeoutId v s).
Proof. exact (fun H => H). Qed.
Lemma remaining_setNow v s : remainingNonneg s -> remainingNonneg (setNow v s).
Proof. exact (fun H => H). Qed.
Lemma remaining_setTimers v s : remainingNonneg s -> remainingNonneg (setTimers v s).
Proof. exact (fun H => H). Qed.
Lemma remaining_emit v s : remainingNonneg s -> remainingNonneg (emit v s).
Proof. exact (fun H => H). Qed.

#[export] Hint Resolve remaining_cancel remaining_debounce remaining_setVideoData remaining_setUserPrefs remaining_setSessionEndTime remaining_setIsPlayerReady remaining_setCurrentPlaybackTime remaining_setIsFocused remaining_setWebViewRef remaining_setSessionTimerIntervalRef remaining_setTimeoutId remaining_setNow remaining_setTimers remaining_emit : remaining.

Lemma remaining_debouncedSaveProgress r p c s :
  remainingNonneg s -> remainingNonneg (debouncedSaveProgress r p c s).
Proof. unfold debouncedSaveProgress. auto with remaining. Qed.

Lemma remaining_saveProgress v f p c s :
  remainingNonneg s -> remainingNonneg (saveProgress v f p c s).
Proof. unfold saveProgress. destruct progressToSave; auto with remaining. Qed.

Lemma remaining_updateTimer_nonneg e c s : remainingNonneg (updateTimer e c s).
Proof.
  unfold remainingNonneg. rewrite remaining_updateTimer. lia.
Qed.

Lemma remaining_handleFinalSessionEnd p s :
  remainingNonneg s -> remainingNonneg (handleFinalSessionEnd p s).
Proof.
  unfold handleFinalSessionEnd. intro H.
  apply remaining_emit, remaining_debouncedSaveProgress, H.
Qed.
#[export] Hint Resolve remaining_debouncedSaveProgress remaining_saveProgress
  remaining_updateTimer_nonneg remaining_handleFinalSessionEnd : remaining.

Lemma remaining_sessionTimerEffect_nonneg s :
  remainingNonneg s -> remainingNonneg (sessionTimerEffect s).
Proof.
  unfold sessionTimerEffect. intro H.
  destruct (JS.truthy _); auto with remaining.
  destruct (isFocused _); auto with remaining.
  cbn [schedule]. apply remaining_setSessionTimerIntervalRef.
  exact (remaining_updateTimer_nonneg _ _ _).
Qed.
#[export] Hint Resolve remaining_sessionTimerEffect_nonneg : remaining.

Lemma remaining_dispatch e s : remainingNonneg s -> remainingNonneg (dispatch e s).
Proof.
  intro H. destruct e; cbn [dispatch].
  - unfold videoFetched. auto with remaining.
  - unfold userFetched. destruct (0 <? _)%Z; auto with remaining.
  - unfold handleWebViewMessage.
    repeat match goal with
           | |- remainingNonneg (match ?x with _ => _ end) => destruct x
           end; auto 7 with remaining.
  - unfold handleSaveAndExit. destruct (_ && _); auto with remaining.
  - unfold handleExtendSession.
    destruct (JS.truthy _); [| destruct (userPrefs s)]; auto with remaining.
  - auto with remaining.
  - unfold onAppStateChange.
    destruct next; auto; destruct (_ && _); auto with remaining;
      destruct (JS.ltb _ _); auto with remaining.
  - unfold updateSettled. destruct ok; [destruct (videoData s) |]; auto with remaining.
  - unfold fire. destruct (findTimer id (timers s)); auto.
    destruct (_ <=? _)%Z; auto. destruct (callback t); auto with remaining.
Qed.

Lemma remaining_commit prev s : remainingNonneg s -> remainingNonneg (commit prev s).
Proof.
  intro H. unfold commit, sessionTimerCleanup, appStateCleanup.
  destruct (sessionTimerDepsChanged prev s), (appStateDepsChanged prev s),
    (saveCallbackChanged prev s);
    try destruct (_ && _); auto 8 with remaining.
Qed.

(** The countdown the screen shows is never negative. *)
Lemma reachable_remaining s : reachable s -> remainingNonneg s.
Proof.
  induction 1.
  - unfold remainingNonneg. cbn. lia.
  - apply remaining_commit, remaining_dispatch, IHreachable.
  - auto with remaining.
Qed.


(** ** What reaches the store *)

Lemma dispatch_quiet e s :
  (forall id, e <> TimerFires id) -> quiet s (dispatch e s).
Proof.
  intro N. destruct e; cbn [dispatch].
  - unfold videoFetched. auto with quiet.
  - unfold userFetched. destruct (0 <? _)%Z; auto with quiet.
  - unfold handleWebViewMessage.
    repeat match goal with
           | |- quiet _ (match ?x with _ => _ end) => destruct x
           end; auto with quiet.
  - unfold handleSaveAndExit. destruct (_ && _); auto with quiet.
  - unfold handleExtendSession.
    destruct (JS.truthy _); [| destruct (userPrefs s)]; auto with quiet.
  - auto with quiet.
  - unfold onAppStateChange.
    destruct next; auto with quiet; destruct (_ && _); auto with quiet;
      destruct (JS.ltb _ _); auto with quiet.
  - unfold updateSettled.
    destruct ok; [destruct (videoData s) |]; auto with quiet.
  - destruct (N id eq_refl).
Qed.

(** No message, button, focus or app-state change and no acknowledgement
    writes to the store: a store write is only ever issued by the run of a
    timer, and one run issues at most one. *)
Theorem writes_only_from_timeouts : forall e s,
  ((forall id, e <> TimerFires id) ->
   storeWrites (effects (step e s)) = storeWrites (effects s)) /\
  (exists l, storeWrites (effects (step e s)) = storeWrites (effects s) ++ l
             /\ (length l <= 1)%nat).
Proof.
  intros e s. unfold step.
  rewrite (frame_storeWrites (frame_commit s (dispatch e s))). split.
  - intro N. apply quiet_storeWrites, dispatch_quiet, N.
  - destruct (dispatch_writes e s) as [Q | (v & f & pos & c & p & P & W)].
    + exists []. rewrite (quiet_storeWrites Q), app_nil_r. auto.
    + exists [p]. auto.
Qed.

Lemma reachable_writes_from (P : VideoProgress -> Prop) :
  (forall video focused position isCompleted t p,
     progressToSave video focused position isCompleted t = Some p -> P p) ->
  forall s, reachable s -> Forall P (storeWrites (effects s)).
Proof.
  intros H s R. induction R as [t0 | e s R IH | t s R IH L].
  - constructor.
  - unfold step.
    rewrite (frame_storeWrites (frame_commit s (dispatch e s))).
    destruct (dispatch_writes e s) as [Q | (v & f & pos & c & p & X & W)].
    + rewrite (quiet_storeWrites Q). exact IH.
    + rewrite W. apply Forall_app. split; auto.
      constructor; [| constructor]. eapply H; eauto.
  - exact IH.
Qed.

Section Bounds.
Local Open Scope Q_scope.

Lemma tenths_le n m : (n <= m)%Z -> n # 10 <= m # 10.
Proof. intro H. unfold Qle. cbn. lia. Qed.

Lemma tenths_nonneg n : (0 <= n)%Z -> 0 <= n # 10.
Proof. intro H. unfold Qle. cbn. lia. Qed.

Lemma floor_nonneg x : 0 <= x -> (0 <= Qfloor x)%Z.
Proof.
  intro H. rewrite <- (Qfloor_Z 0). apply Qfloor_resp_le. exact H.
Qed.

Lemma toFixed1_nonneg x : 0 <= x -> 0 <= JS.toFixed1 x.
Proof.
  intro H. unfold JS.toFixed1.
  replace (JS.ltb x 0) with false.
  - apply tenths_nonneg, floor_nonneg. lra.
  - symmetry. unfold JS.ltb. apply negb_false_iff, Qle_bool_iff. exact H.
Qed.

(** [toFixed(1)] is monotone. *)
Lemma toFixed1_mono x y : x <= y -> JS.toFixed1 x <= JS.toFixed1 y.
Proof.
  intro H. unfold JS.toFixed1.
  destruct (JS.ltb x 0) eqn:X; destruct (JS.ltb y 0) eqn:Y.
  - assert (L : (Qfloor (- y * 10 + (1 # 2)) <= Qfloor (- x * 10 + (1 # 2)))%Z)
      by (apply Qfloor_resp_le; lra).
    apply tenths_le in L.
    set (a := Qfloor (- y * 10 + (1 # 2)) # 10) in *.
    set (b := Qfloor (- x * 10 + (1 # 2)) # 10) in *. lra.
  - apply ltb_lt in X.
    assert (Ny : 0 <= y).
    { unfold JS.ltb in Y. apply negb_false_iff, Qle_bool_iff in Y. exact Y. }
    assert (A : 0 <= Qfloor (- x * 10 + (1 # 2)) # 10).
    { apply tenths_nonneg, floor_nonneg. lra. }
    assert (B : 0 <= Qfloor (y * 10 + (1 # 2)) # 10).
    { apply tenths_nonneg, floor_nonneg. lra. }
    set (a := Qfloor (- x * 10 + (1 # 2)) # 10) in *.
    set (b := Qfloor (y * 10 + (1 # 2)) # 10) in *. lra.
  - apply ltb_lt in Y.
    unfold JS.ltb in X. apply negb_false_iff, Qle_bool_iff in X. lra.
  - apply tenths_le, Qfloor_resp_le. lra.
Qed.

Lemma newProgress_bounds d position isCompleted t :
  let p := newProgress d position isCompleted t in
  completionPercentage p <= 100 /\
  (completed p = false -> completionPercentage p <= 98) /\
  (0 <= position -> 0 < d -> 0 <= completionPercentage p) /\
  (0 <= position -> 0 <= lastPosition p <= position).
Proof.
  cbv zeta. cbn [completionPercentage completed lastPosition newProgress].
  set (raw := JS.min 100 (position / d * 100)).
  assert (R100 : raw <= 100) by apply Q.le_min_l.
  split; [| split; [| split]].
  - apply Qle_trans with (JS.toFixed1 100);
      [apply toFixed1_mono; exact R100 | vm_compute; discriminate].
  - intro C. assert (L : raw <= 98).
    { destruct isCompleted as [[|] |]; try discriminate;
        destruct (Qle_bool 98 raw) eqn:E; try discriminate;
        apply Qlt_le_weak, Qnot_le_lt; intro X; apply Qle_bool_iff in X; congruence. }
    apply Qle_trans with (JS.toFixed1 98);
      [apply toFixed1_mono; exact L | vm_compute; discriminate].
  - intros Hp Hd. apply toFixed1_nonneg. unfold raw, JS.min.
    apply Q.min_glb; [discriminate |].
    apply Qmult_le_0_compat; [| discriminate].
    apply Qle_shift_div_l; auto. lra.
  - intro Hp. unfold JS.floor. split.
    + change 0 with (inject_Z 0). rewrite <- Zle_Qle.
      apply floor_nonneg. exact Hp.
    + apply Qfloor_le.
Qed.

End Bounds.

(** Every progress record the screen writes has a completion percentage of
    at most 100, and at most 98.0 when it is stored as not completed; so
    the cap [Math.min(100, ...)] of the dashboard's progress bar changes
    none of them. *)
Theorem stored_percentage_bounded : forall s,
  reachable s ->
  Forall (fun p =>
            (completionPercentage p <= 100)%Q /\
            (completed p = false -> completionPercentage p <= 98)%Q /\
            (progressFillWidth p == completionPercentage p)%Q)
         (storeWrites (effects s)).
Proof.
  apply reachable_writes_from.
  intros video focused position isCompleted t p H.
  rewrite progressToSave_guard in H.
  destruct (saveAllowed video focused); [| discriminate].
  destruct video as [v |]; [| discriminate]. inversion H; subst.
  destruct (newProgress_bounds (duration v) position isCompleted t)
    as (A & B & _).
  repeat split; auto.
  unfold progressFillWidth, JS.min. apply Q.min_r. exact A.
Qed.


(** ** Messages that save nothing *)

(** Of the player states only PAUSED and ENDED do anything: a state change
    to any other state (playing, buffering, cued, unstarted, unknown), a
    state change without a state or without a time, and a message of an
    unknown type leave the screen exactly as it was. *)
Theorem other_state_changes_ignored : forall s,
  (forall st t,
     st <> YTPlayerState.PAUSED -> st <> YTPlayerState.ENDED ->
     step (Message (Some (mkMessage PLAYER_STATE_CHANGE t (Some st) None))) s = s) /\
  (forall st code,
     step (Message (Some (mkMessage PLAYER_STATE_CHANGE None st code))) s = s) /\
  (forall t st code,
     step (Message (Some (mkMessage OTHER_TYPE t st code))) s = s).
Proof.
  intro s. split; [| split].
  - intros st t NP NE. unfold step. cbn [dispatch handleWebViewMessage type playerState].
    destruct (st =? YTPlayerState.PLAYING)%Z.
    + apply commit_unchanged; reflexivity.
    + replace (st =? YTPlayerState.PAUSED)%Z with false
        by (symmetry; apply Z.eqb_neq; exact NP).
      replace (st =? YTPlayerState.ENDED)%Z with false
        by (symmetry; apply Z.eqb_neq; exact NE).
      apply commit_unchanged; reflexivity.
  - intros st code. unfold step.
    cbn [dispatch handleWebViewMessage type playerState currentTime].
    destruct st as [st |]; [| apply commit_unchanged; reflexivity].
    destruct (st =? YTPlayerState.PLAYING)%Z,
      (st =? YTPlayerState.PAUSED)%Z, (st =? YTPlayerState.ENDED)%Z;
      apply commit_unchanged; reflexivity.
  - intros t st code. unfold step. cbn. apply commit_unchanged; reflexivity.
Qed.

(** A player error is logged and shown in an alert, with its code, and
    changes nothing else: no state, no timer, no store write. *)
Theorem player_error_only_reported : forall s code,
  step (playerError code) s
  = emit (Alert (PlayerErrorAlert code))
      (emit (ConsoleError (YouTubePlayerError code)) s).
Proof.
  intros s code. unfold step, playerError.
  cbn [dispatch handleWebViewMessage type errorCode].
  apply commit_unchanged; reflexivity.
Qed.

(** ** The player becomes ready *)

Lemma commit_appState_only prev a :
  sessionTimerDepsChanged prev a = false ->
  saveCallbackChanged prev a = false ->
  appStateDepsChanged prev a = true ->
  commit prev a = appStateCleanup prev a.
Proof. intros T C A. unfold commit. rewrite T, C, A. reflexivity. Qed.

(** PLAYER_READY marks the player ready and, when a position is known, seeks
    to it.  When the player was not ready before and the video is loaded
    with a positive position, the re-render also leaves that position
    pending in the debounced save; a repeated PLAYER_READY only seeks
    again. *)
Theorem player_ready_seeks_and_saves : forall s v,
  reachable s ->
  videoData s = Some v -> webViewRef s = true ->
  (0 < currentPlaybackTime s)%Q ->
  let s' := step playerReady s in
  isPlayerReady s' = true /\
  effects s' = effects s ++ [InjectJavaScript (SeekTo (currentPlaybackTime s))] /\
  (isPlayerReady s = false ->
   exists id,
     timeoutId s' = Some id /\
     findTimer id (timers s')
     = Some (mkTimer id (now s + 3000)
               (SaveProgress (videoData s) (isFocused s)
                  (currentPlaybackTime s) None))) /\
  (isPlayerReady s = true ->
   timers s' = timers s /\ timeoutId s' = timeoutId s).
Proof.
  intros s v R V W P s'.
  set (a := emit (InjectJavaScript (SeekTo (currentPlaybackTime s)))
              (setIsPlayerReady true s)).
  assert (D : dispatch playerReady s = a).
  { unfold playerReady. cbn [dispatch handleWebViewMessage type].
    apply ltb_lt in P. rewrite P, W. reflexivity. }
  assert (T : sessionTimerDepsChanged s a = false).
  { unfold sessionTimerDepsChanged, isFocusedChanged, currentPlaybackTimeChanged.
    cbn. rewrite optZ_eqb_refl, Bool.eqb_reflx, Qeq_bool_refl. reflexivity. }
  assert (C : saveCallbackChanged s a = false).
  { unfold saveCallbackChanged, videoDataChanged, isFocusedChanged. cbn.
    rewrite Nat.eqb_refl, Bool.eqb_reflx. reflexivity. }
  destruct (isPlayerReady s) eqn:Ready.
  - assert (E : s' = a).
    { unfold s', step. rewrite D. apply commit_unchanged; auto. }
    rewrite E. repeat split; try discriminate; auto.
  - assert (E : s' = appStateCleanup s a).
    { unfold s', step. rewrite D. apply commit_appState_only; auto.
      unfold appStateDepsChanged. cbn. rewrite Ready. reflexivity. }
    assert (E' : s' = debouncedSaveProgress s (currentPlaybackTime s) None a).
    { rewrite E. unfold appStateCleanup. rewrite V.
      apply ltb_lt in P. rewrite P. reflexivity. }
    rewrite E'. unfold debouncedSaveProgress.
    assert (Fa : timersFresh a) by (apply reachable_fresh in R; exact R).
    destruct (debounce_pending
                (SaveProgress (videoData s) (isFocused s) (currentPlaybackTime s) None)
                3000 Fa) as [T1 T2].
    split; [rewrite debounce_eq; reflexivity |].
    split; [rewrite debounce_eq; reflexivity |].
    split; [| discriminate].
    intros _. exists (nextTimerId a). split; [exact T1 | exact T2].
Qed.

(** ** Save and exit through the bridge *)

(** With the player ready, save-and-exit only asks the page for the current
    time: nothing is saved and no alert is shown until the page answers.
    The answer SESSION_END_REQUEST then does what save-and-exit does at
    once for a player that is not ready, with the position of the answer;
    an answer without a time falls back to the position in memory. *)
Theorem save_and_exit_round_trip : forall s,
  isPlayerReady s = true -> webViewRef s = true ->
  step SaveAndExit s
  = emit (InjectJavaScript (PostSessionEndRequest (currentPlaybackTime s))) s /\
  (forall t,
     step (sessionEndRequest (Some t)) (step SaveAndExit s)
     = handleFinalSessionEnd t (step SaveAndExit s)) /\
  step (sessionEndRequest None) (step SaveAndExit s)
  = handleFinalSessionEnd (currentPlaybackTime s) (step SaveAndExit s).
Proof.
  intros s Ready W.
  assert (E : step SaveAndExit s
              = emit (InjectJavaScript (PostSessionEndRequest (currentPlaybackTime s))) s).
  { unfold step. cbn [dispatch]. unfold handleSaveAndExit. rewrite Ready, W.
    apply commit_unchanged; reflexivity. }
  split; [exact E |]. split.
  - intro t. apply step_final_session_end. reflexivity.
  - rewrite (@step_final_session_end (sessionEndRequest None)
               (step SaveAndExit s) (currentPlaybackTime (step SaveAndExit s)) eq_refl).
    rewrite E. reflexivity.
Qed.

(** ** Extending again and again *)

Lemma extend_running_endTime s e :
  JS.truthy (sessionEndTime s) = Some e ->
  sessionEndTime (step ExtendSession s) = Some (e + 300000)%Z.
Proof.
  intro T. unfold step.
  rewrite (fr_sessionEndTime (frame_commit s (dispatch ExtendSession s))).
  cbn [dispatch]. unfold handleExtendSession. rewrite T. reflexivity.
Qed.

(** Extensions add up: [k] presses of the button on a running session move
    its end [k] times five minutes forward. *)
Theorem extensions_add_up : forall k s e,
  (0 < e)%Z -> sessionEndTime s = Some e ->
  sessionEndTime (Nat.iter k (step ExtendSession) s)
  = Some (e + Z.of_nat k * 300000)%Z.
Proof.
  induction k as [| k IH]; intros s e P T.
  - cbn. rewrite T. f_equal. lia.
  - rewrite Nat.iter_succ.
    rewrite (@extend_running_endTime _ (e + Z.of_nat k * 300000)).
    + f_equal. lia.
    + rewrite (IH s e P T). cbn.
      destruct (e + Z.of_nat k * 300000)%Z eqn:X; auto. lia.
Qed.


(** ** Instances *)

Lemma interval_unique_and_owned_witness :
  let s := session (freshVideo 600) (Some 30%Z) 0 in
  (length (filter isInterval (timers s)) <= 1)%nat /\
  forall t, In t (timers s) -> isInterval t = true ->
    sessionTimerIntervalRef s = Some (tid t).
Proof.
  exact (@interval_unique_and_owned (session (freshVideo 600) (Some 30%Z) 0)
           (reachable_session _ _ _)).
Defined.

Lemma interval_only_while_focused_and_running_witness :
  let s := step (FocusChange false) (session (freshVideo 600) (Some 30%Z) 0) in
  isFocused s = false /\ filter isInterval (timers s) = [].
Proof.
  intro s.
  assert (F : isFocused s = false) by (vm_compute; reflexivity).
  split; [exact F |].
  exact (proj2 (@interval_only_while_focused_and_running s
                  (reach_step _ (reachable_session _ _ _)))
           (or_introl F)).
Defined.

Lemma tick_counts_down_or_expires_witness :
  let s := setNow 1000 (session (freshVideo 600) (Some 30%Z) 0) in
  let s' := step (TimerFires 1) s in
  let remaining := ((1800000 - now s) / 1000)%Z in
  (0 < remaining)%Z /\
  sessionTimeRemaining s' = remaining /\
  effects s' = effects s /\
  findTimer 1 (timers s')
  = Some (mkTimer 1 (now s + 1000) (UpdateTimer 1800000 0)).
Proof.
  intros s s' remaining.
  assert (R : reachable s).
  { apply reach_clock; [apply reachable_session | vm_compute; discriminate]. }
  assert (F : findTimer 1 (timers s) = Some (mkTimer 1 1000 (UpdateTimer 1800000 0)))
    by (vm_compute; reflexivity).
  assert (D : (due (mkTimer 1 1000 (UpdateTimer 1800000 0)) <= now s)%Z)
    by (vm_compute; discriminate).
  assert (H : (0 < remaining)%Z) by (vm_compute; reflexivity).
  split; [exact H |].
  exact (proj1 (@tick_counts_down_or_expires s 1%nat _ 1800000%Z 0 R F eq_refl D) H).
Defined.

Lemma remaining_follows_clock_witness :
  let s := setNow 90000 (step (FocusChange false)
                           (session (freshVideo 600) (Some 30%Z) 0)) in
  sessionTimeRemaining (step (FocusChange true) s)
  = Z.max 0 ((1800000 - now s) / 1000).
Proof.
  intro s.
  assert (T : JS.truthy (sessionEndTime s) = Some 1800000%Z) by (vm_compute; reflexivity).
  assert (F : isFocused s = false) by (vm_compute; reflexivity).
  exact (proj1 (@remaining_follows_clock s 1800000%Z T) F).
Defined.

Lemma writes_only_from_timeouts_witness :
  let s := session (freshVideo 600) (Some 30%Z) 0 in
  storeWrites (effects (step (timeUpdate 5) s)) = storeWrites (effects s).
Proof.
  intro s.
  apply (proj1 (writes_only_from_timeouts (timeUpdate 5) s)).
  intros id. discriminate.
Defined.

Lemma stored_percentage_bounded_witness :
  let s := step (TimerFires 2)
             (setNow 3000 (step (stateChange YTPlayerState.ENDED 595)
                             (session (freshVideo 600) (Some 30%Z) 0))) in
  storeWrites (effects s) <> [] /\
  Forall (fun p =>
            (completionPercentage p <= 100)%Q /\
            (completed p = false -> completionPercentage p <= 98)%Q /\
            (progressFillWidth p == completionPercentage p)%Q)
         (storeWrites (effects s)).
Proof.
  intro s. split; [vm_compute; discriminate |].
  apply (@stored_percentage_bounded s).
  apply reach_step, reach_clock; [apply reach_step, reachable_session |].
  vm_compute. discriminate.
Defined.

Lemma other_state_changes_ignored_witness :
  let s := session (freshVideo 600) (Some 30%Z) 0 in
  step (Message (Some (mkMessage PLAYER_STATE_CHANGE (Some 12)
                         (Some YTPlayerState.BUFFERING) None))) s = s.
Proof.
  intro s.
  apply (proj1 (other_state_changes_ignored s) YTPlayerState.BUFFERING (Some 12));
    discriminate.
Defined.

Lemma player_ready_seeks_and_saves_witness :
  let s := step (timeUpdate 5) (session (freshVideo 600) (Some 30%Z) 0) in
  let s' := step playerReady s in
  isPlayerReady s' = true /\
  effects s' = effects s ++ [InjectJavaScript (SeekTo (currentPlaybackTime s))].
Proof.
  intros s s'.
  assert (V : videoData s = Some (freshVideo 600)) by (vm_compute; reflexivity).
  assert (W : webViewRef s = true) by (vm_compute; reflexivity).
  assert (P : (0 < currentPlaybackTime s)%Q) by (vm_compute; reflexivity).
  destruct (@player_ready_seeks_and_saves s (freshVideo 600)
              (reach_step _ (reachable_session _ _ _)) V W P) as (A & B & _).
  split; [exact A | exact B].
Defined.

Lemma save_and_exit_round_trip_witness :
  let s := step playerReady (session (freshVideo 600) (Some 30%Z) 0) in
  step (sessionEndRequest (Some 42)) (step SaveAndExit s)
  = handleFinalSessionEnd 42 (step SaveAndExit s).
Proof.
  intro s.
  assert (P : isPlayerReady s = true) by (vm_compute; reflexivity).
  assert (W : webViewRef s = true) by (vm_compute; reflexivity).
  exact (proj1 (proj2 (@save_and_exit_round_trip s P W)) 42).
Defined.

Lemma extensions_add_up_witness :
  let s := session (freshVideo 600) (Some 30%Z) 0 in
  sessionEndTime (Nat.iter 3 (step ExtendSession) s)
  = Some (1800000 + Z.of_nat 3 * 300000)%Z.
Proof.
  intro s.
  assert (E : sessionEndTime s = Some 1800000%Z) by (vm_compute; reflexivity).
  exact (@extensions_add_up 3 s 1800000%Z eq_refl E).
Defined.

Lemma debounce_coalesces_witness :
  let s := session (freshVideo 600) (Some 30%Z) 0 in
  timers (debouncedCalls s ([(0%Z, 1); (1000%Z, 2)] ++ [(2000%Z, 3)]) s)
  = pendingAfterClear s
    ++ [mkTimer (nextTimerId s + length [(0%Z, 1); (1000%Z, 2)]) (2000 + 3000)
          (SaveProgress (videoData s) (isFocused s) 3 None)].
Proof.
  intro s.
  exact (@debounce_coalesces s [(0%Z, 1); (1000%Z, 2)] s 2000%Z 3
           (reachable_fresh (reachable_session _ _ _))).
Defined.

Lemma timeUpdate_leaves_previous_position_witness :
  let s := step (timeUpdate 5) (session (freshVideo 600) (Some 30%Z) 0) in
  let s' := step (timeUpdate 6) s in
  exists id,
    timeoutId s' = Some id /\
    findTimer id (timers s')
    = Some (mkTimer id (now s + 3000)
              (SaveProgress (videoData s) (isFocused s) (currentPlaybackTime s) None)).
Proof.
  intros s s'.
  assert (V : videoData s = Some (freshVideo 600)) by (vm_compute; reflexivity).
  assert (P : (0 < currentPlaybackTime s)%Q) by (vm_compute; reflexivity).
  assert (N : ~ (currentPlaybackTime s == 6)%Q) by (vm_compute; discriminate).
  exact (@timeUpdate_leaves_previous_position s (freshVideo 600) 6
           (reach_step _ (reachable_session _ _ _)) V P N).
Defined.

Lemma timeUpdate_after_expiry_signals_again_witness :
  let s := setNow 60000 (session (freshVideo 600) (Some 1%Z) 0) in
  sessionEndRequests (effects (step (timeUpdate 7) s))
  = sessionEndRequests (effects s) ++ [7].
Proof.
  intro s.
  assert (T : JS.truthy (sessionEndTime s) = Some 60000%Z) by (vm_compute; reflexivity).
  assert (F : isFocused s = true) by (vm_compute; reflexivity).
  assert (W : webViewRef s = true) by (vm_compute; reflexivity).
  assert (X : ((60000 - now s) / 1000 <= 0)%Z) by (vm_compute; discriminate).
  assert (N : ~ (currentPlaybackTime s == 7)%Q) by (vm_compute; discriminate).
  exact (@timeUpdate_after_expiry_signals_again s 60000%Z 7 T F W X N).
Defined.


(** * Properties of the helpers and services *)

(** ** Whole parts and remainders *)

Section Remainders.

Local Open Scope Q_scope.

Lemma Qfloor_unique (q : Q) (k : Z) :
  inject_Z k <= q -> q < inject_Z (k + 1) -> Qfloor q = k.
Proof.
  intros L U.
  pose proof (Qfloor_le q) as L'. pose proof (Qlt_floor q) as U'.
  assert (A : inject_Z k < inject_Z (Qfloor q + 1)) by (eapply Qle_lt_trans; eauto).
  assert (B : inject_Z (Qfloor q) < inject_Z (k + 1)) by (eapply Qle_lt_trans; eauto).
  rewrite <- Zlt_Qlt in A, B. lia.
Qed.

Lemma Qfloor_minus_Z (q : Q) (z : Z) : Qfloor (q - inject_Z z) = (Qfloor q - z)%Z.
Proof.
  apply Qfloor_unique.
  - pose proof (Qfloor_le q) as L. unfold Z.sub.
    rewrite inject_Z_plus, inject_Z_opp. lra.
  - pose proof (Qlt_floor q) as U.
    replace (Qfloor q - z + 1)%Z with (Qfloor q + 1 + - z)%Z by lia.
    rewrite inject_Z_plus, inject_Z_opp. lra.
Qed.

(** The whole part of a quotient by a whole number is the quotient of the
    whole part. *)
Lemma Qfloor_div (q : Q) (m : Z) :
  (0 < m)%Z -> Qfloor (q / inject_Z m) = (Qfloor q / m)%Z.
Proof.
  intro M. assert (M' : 0 < inject_Z m) by (rewrite Zlt_Qlt in M; exact M).
  pose proof (Qfloor_le q) as L. pose proof (Qlt_floor q) as U.
  apply Qfloor_unique.
  - apply Qle_shift_div_l; [exact M' |].
    apply Qle_trans with (inject_Z (Qfloor q)); [| exact L].
    rewrite <- inject_Z_mult, <- Zle_Qle.
    pose proof (Z.mul_div_le (Qfloor q) m M). lia.
  - apply Qlt_shift_div_r; [exact M' |].
    apply Qlt_le_trans with (inject_Z (Qfloor q + 1)); [exact U |].
    rewrite <- inject_Z_mult, <- Zle_Qle.
    pose proof (Z.mul_succ_div_gt (Qfloor q) m M). lia.
Qed.

Lemma ltb_nonneg (q : Q) : 0 <= q -> JS.ltb q 0 = false.
Proof.
  intro H. unfold JS.ltb. apply negb_false_iff, Qle_bool_iff, H.
Qed.

Lemma ltb_negative (q : Q) : q < 0 -> JS.ltb q 0 = true.
Proof.
  intro H. unfold JS.ltb. apply negb_true_iff.
  destruct (Qle_bool 0 q) eqn:E; [| reflexivity].
  apply Qle_bool_iff in E. lra.
Qed.

(** The remainder of a number that is not negative, by a whole number. *)
Lemma remainder_nonneg (t : Q) (m : Z) :
  0 <= t -> (0 < m)%Z ->
  Helpers.remainder t (inject_Z m) == t - inject_Z (m * (Qfloor t / m)).
Proof.
  intros T M. assert (M' : 0 < inject_Z m) by (rewrite Zlt_Qlt in M; exact M).
  unfold Helpers.remainder. rewrite ltb_nonneg.
  - rewrite Qfloor_div by exact M. rewrite inject_Z_mult. reflexivity.
  - apply Qle_shift_div_l; [exact M' | lra].
Qed.

Lemma floor_remainder (t : Q) (m : Z) :
  0 <= t -> (0 < m)%Z ->
  Qfloor (Helpers.remainder t (inject_Z m)) = (Qfloor t mod m)%Z.
Proof.
  intros T M. rewrite (Qfloor_comp _ _ (remainder_nonneg T M)).
  rewrite Qfloor_minus_Z. rewrite Z.mod_eq by lia. reflexivity.
Qed.

Lemma remainder_sign (t : Q) (m : Z) :
  0 <= t -> (0 < m)%Z -> 0 <= Helpers.remainder t (inject_Z m).
Proof.
  intros T M. rewrite (remainder_nonneg T M).
  pose proof (Qfloor_le t) as L.
  assert (inject_Z (m * (Qfloor t / m)) <= inject_Z (Qfloor t)).
  { rewrite <- Zle_Qle. apply Z.mul_div_le, M. }
  lra.
Qed.

Lemma floor_nonneg_Z (t : Q) : 0 <= t -> (0 <= Qfloor t)%Z.
Proof.
  intro T. change 0%Z with (Qfloor 0). apply Qfloor_resp_le, T.
Qed.

End Remainders.

Module HelpersFacts.

Import Ascii String DecimalString Helpers.
Local Open Scope string_scope.

(** ** Strings *)

Lemma append_assoc (a b c : string) : (a ++ b) ++ c = a ++ b ++ c.
Proof. induction a as [| x a IH]; cbn; [| rewrite IH]; reflexivity. Qed.


(** ** Decimal digits *)


Lemma digits_of_uint_end d :
  Text.digitsPrefix (NilEmpty.string_of_uint d) = (NilEmpty.string_of_uint d, "").
Proof.
  induction d; cbn [NilEmpty.string_of_uint Text.digitsPrefix];
    try (rewrite IHd; reflexivity). reflexivity.
Qed.

Lemma to_uint_nonnil n : N.to_uint n <> Decimal.Nil.
Proof.
  destruct n as [| p]; cbn; [discriminate |].
  apply DecimalPos.Unsigned.to_uint_nonnil.
Qed.

Lemma decimal_cons n : exists c rest, decimal n = String c rest /\ Text.isDigit c = true.
Proof.
  unfold decimal. pose proof (to_uint_nonnil n) as H.
  destruct (N.to_uint n); try contradiction; cbn; eauto.
Qed.


(** ** [convertISO8601ToSeconds] *)

Lemma afterPT_found s : forall body,
  afterPT s = Some body -> exists pre, s = pre ++ "PT" ++ body.
Proof.
  induction s as [| c rest IH]; intros body H; [discriminate |].
  cbn [afterPT] in H. destruct rest as [| c' rest']; [discriminate |].
  destruct (Ascii.eqb c "P" && Ascii.eqb c' "T")%bool eqn:E.
  - apply andb_prop in E. destruct E as [E1 E2].
    apply Ascii.eqb_eq in E1, E2. subst. inversion H; subst.
    exists "". reflexivity.
  - destruct (IH body H) as (pre & P). exists (String c pre).
    rewrite P. reflexivity.
Qed.






Lemma afterPT_not_empty s body : afterPT s = Some body -> s <> "".
Proof. destruct s; [discriminate | discriminate]. Qed.

(** A duration without the letters PT next to each other is worth nothing:
    among them the empty text, a duration of whole days such as P1D and,
    the days being written between the P and the T, every duration of a
    day or more, such as P1DT2H. *)
Theorem duration_without_PT_is_zero durationISO :
  (forall pre body, durationISO <> pre ++ "PT" ++ body) ->
  convertISO8601ToSeconds durationISO = 0%N.
Proof.
  intro H. unfold convertISO8601ToSeconds.
  destruct durationISO as [| c rest]; [reflexivity |].
  destruct (afterPT (String c rest)) as [body |] eqn:E; [| reflexivity].
  destruct (afterPT_found _ E) as (pre & P). destruct (H pre body P).
Qed.



Lemma without_append c a b : without c a -> without c b -> without c (a ++ b).
Proof.
  intros A B. induction a as [| x a IH]; [exact B |].
  destruct A as [N A]. split; [exact N | apply IH, A].
Qed.

Lemma without_digits c d : Text.isDigit c = false -> without c (NilEmpty.string_of_uint d).
Proof.
  intro H. induction d; cbn [NilEmpty.string_of_uint without]; [exact I | ..];
    (split; [intro E; subst c; discriminate | exact IHd]).
Qed.

Lemma afterPT_without_P s : without "P" s -> afterPT s = None.
Proof.
  induction s as [| c rest IH]; intro W; [reflexivity |].
  destruct W as [N W]. specialize (IH W).
  destruct rest as [| c' rest']; [reflexivity |].
  change (afterPT (String c (String c' rest')))
    with (if (Ascii.eqb c "P" && Ascii.eqb c' "T")%bool
          then Some rest' else afterPT (String c' rest')).
  apply Ascii.eqb_neq in N. rewrite N. exact IH.
Qed.

(** A duration of one day or more, written with its days between the P and
    the T as in P1DT2H, is worth nothing, whatever its hours, minutes and
    seconds. *)
Theorem duration_with_days_is_zero days rest :
  without "P" rest ->
  convertISO8601ToSeconds ("P" ++ decimal days ++ "D" ++ rest) = 0%N.
Proof.
  intro W. unfold convertISO8601ToSeconds.
  change ("P" ++ ?x) with (String "P" x).
  assert (A : afterPT (decimal days ++ "D" ++ rest) = None).
  { apply afterPT_without_P, without_append.
    - apply without_digits. reflexivity.
    - split; [discriminate | exact W]. }
  destruct (decimal_cons days) as (c & r & E & D). revert A. rewrite E.
  change (String c r ++ ?x) with (String c (r ++ x)). intro A.
  change (afterPT (String "P" (String c (r ++ "D" ++ rest))))
    with (if (Ascii.eqb "P" "P" && Ascii.eqb c "T")%bool
          then Some (r ++ "D" ++ rest) else afterPT (String c (r ++ "D" ++ rest))).
  replace (Ascii.eqb c "T") with false.
  - cbn [Ascii.eqb Bool.eqb andb]. rewrite A. reflexivity.
  - symmetry. apply Ascii.eqb_neq. intro; subst c. discriminate.
Qed.

(** ** [formatVideoDuration] *)

Lemma trimEnd_cons c r :
  Text.isWhite c = false \/ Text.trimEnd r <> "" ->
  Text.trimEnd (String c r) = String c (Text.trimEnd r).
Proof.
  intro H. cbn [Text.trimEnd]. destruct (Text.trimEnd r) eqn:E; [| reflexivity].
  destruct H as [H | H]; [rewrite H; reflexivity | contradiction].
Qed.

Lemma trimEnd_digits d rest :
  Text.trimEnd (NilEmpty.string_of_uint d ++ rest)
  = NilEmpty.string_of_uint d ++ Text.trimEnd rest.
Proof.
  induction d; cbn [NilEmpty.string_of_uint append]; [reflexivity | ..];
    (rewrite trimEnd_cons by (left; reflexivity)); rewrite IHd; reflexivity.
Qed.

Lemma trim_digits d rest :
  d <> Decimal.Nil ->
  Text.trim (NilEmpty.string_of_uint d ++ rest)
  = NilEmpty.string_of_uint d ++ Text.trimEnd rest.
Proof.
  intro H. unfold Text.trim. rewrite <- trimEnd_digits. f_equal.
  destruct d; try contradiction; reflexivity.
Qed.

Lemma show_digits z :
  (0 <= z)%Z -> exists d, d <> Decimal.Nil /\ Text.show z = NilEmpty.string_of_uint d.
Proof.
  intro H. unfold Text.show. destruct z as [| p | p]; try lia; cbn.
  - exists (Decimal.D0 Decimal.Nil). split; [discriminate | reflexivity].
  - exists (Pos.to_uint p). split; [apply DecimalPos.Unsigned.to_uint_nonnil | reflexivity].
Qed.

Lemma digits_not_empty d rest : d <> Decimal.Nil -> NilEmpty.string_of_uint d ++ rest <> "".
Proof. destruct d; try contradiction; discriminate. Qed.

Lemma trim_amount z unit :
  (0 <= z)%Z -> Text.isWhite unit = false ->
  Text.trim (Text.show z ++ String unit " ") = Text.show z ++ String unit "".
Proof.
  intros Z U. destruct (show_digits Z) as (d & N & ->).
  rewrite trim_digits by exact N. cbn [Text.trimEnd]. rewrite U. reflexivity.
Qed.

Lemma trim_amount_last z unit :
  (0 <= z)%Z -> Text.isWhite unit = false ->
  Text.trim (Text.show z ++ String unit "") = Text.show z ++ String unit "".
Proof.
  intros Z U. destruct (show_digits Z) as (d & N & ->).
  rewrite trim_digits by exact N. cbn [Text.trimEnd]. rewrite U. reflexivity.
Qed.

Lemma trim_two_amounts z u z' u' tail :
  (0 <= z)%Z -> (0 <= z')%Z -> Text.isWhite u = false -> Text.isWhite u' = false ->
  Text.trimEnd (String u' tail) = String u' "" ->
  Text.trim ((Text.show z ++ String u " ") ++ Text.show z' ++ String u' tail)
  = Text.show z ++ String u " " ++ Text.show z' ++ String u' "".
Proof.
  intros Z Z' U U' T.
  destruct (show_digits Z) as (d & N & ->). destruct (show_digits Z') as (d' & N' & ->).
  rewrite append_assoc, trim_digits by exact N. f_equal.
  change (String u " " ++ ?x) with (String u (String " " x)).
  assert (E : Text.trimEnd (NilEmpty.string_of_uint d' ++ String u' tail)
              = NilEmpty.string_of_uint d' ++ String u' "")
    by (rewrite trimEnd_digits, T; reflexivity).
  rewrite trimEnd_cons by (left; exact U).
  rewrite trimEnd_cons by (right; rewrite E; apply digits_not_empty, N').
  rewrite E. reflexivity.
Qed.

Lemma or_else_amount z rest :
  (0 <= z)%Z -> Text.or_else (Text.show z ++ rest) "0s" = Text.show z ++ rest.
Proof.
  intro Z. destruct (show_digits Z) as (d & N & ->).
  destruct d; try contradiction; reflexivity.
Qed.

Ltac drop_empty :=
  repeat match goal with |- context ["" ++ ?x] => change ("" ++ x) with x end.

Lemma format_parts (t : Q) :
  (0 <= t)%Q ->
  let n := Qfloor t in
  let h := (n / 3600)%Z in
  let m := (n mod 3600 / 60)%Z in
  let sec := (n mod 60)%Z in
  formatVideoDuration (Num t)
  = if (0 <? h)%Z then Text.show h ++ "h " ++ Text.show m ++ "m"
    else if (0 <? m)%Z
         then if (0 <? sec)%Z
              then Text.show m ++ "m " ++ Text.show sec ++ "s"
              else Text.show m ++ "m"
         else Text.show sec ++ "s".
Proof.
  intros T n h m sec. unfold formatVideoDuration. rewrite (ltb_nonneg T).
  change (t / 3600)%Q with (t / inject_Z 3600)%Q.
  change (remainder t 3600) with (remainder t (inject_Z 3600)).
  change (remainder t 60) with (remainder t (inject_Z 60)).
  change (remainder t (inject_Z 3600) / 60)%Q
    with (remainder t (inject_Z 3600) / inject_Z 60)%Q.
  rewrite (Qfloor_div t (m := 3600)) by lia.
  rewrite (Qfloor_div _ (m := 60)) by lia.
  rewrite !floor_remainder by (exact T || lia).
  fold n. fold h. fold m. fold sec. cbv zeta.
  pose proof (floor_nonneg_Z T) as N. fold n in N.
  assert (H : (0 <= h)%Z) by (apply Z.div_pos; lia).
  assert (M : (0 <= m)%Z) by (apply Z.div_pos; [apply Z.mod_pos_bound |]; lia).
  assert (S : (0 <= sec)%Z) by (apply Z.mod_pos_bound; lia).
  destruct (0 <? h)%Z eqn:Eh.
  - replace (h =? 0)%Z with false by (symmetry; apply Z.eqb_neq; lia).
    rewrite orb_true_r, andb_false_r. cbn [andb]. drop_empty.
    rewrite trim_two_amounts by (reflexivity || assumption).
    apply or_else_amount, H.
  - replace (h =? 0)%Z with true by (symmetry; apply Z.eqb_eq; lia).
    rewrite orb_false_r, andb_true_r. cbn [andb].
    destruct (0 <? m)%Z eqn:Em.
    + replace (m =? 0)%Z with false by (symmetry; apply Z.eqb_neq; lia).
      cbn [orb andb]. destruct (0 <? sec)%Z; drop_empty.
      * rewrite trim_two_amounts by (reflexivity || assumption).
        apply or_else_amount, M.
      * rewrite trim_amount by (reflexivity || assumption).
        apply or_else_amount, M.
    + replace (m =? 0)%Z with true by (symmetry; apply Z.eqb_eq; lia).
      cbn [orb andb]. drop_empty. rewrite trim_amount_last by (reflexivity || assumption).
      apply or_else_amount, S.
Qed.


(** From one hour on the seconds are not shown: two durations of the same
    whole number of minutes have the same text. *)
Theorem formatVideoDuration_drops_seconds (t t' : Q) :
  (3600 <= t)%Q -> (3600 <= t')%Q ->
  (Qfloor t / 60 = Qfloor t' / 60)%Z ->
  formatVideoDuration (Num t) = formatVideoDuration (Num t').
Proof.
  intros T T' E.
  rewrite !format_parts by lra. cbv zeta.
  assert (N : (3600 <= Qfloor t)%Z)
    by (change 3600%Z with (Qfloor (inject_Z 3600)); apply Qfloor_resp_le, T).
  assert (N' : (3600 <= Qfloor t')%Z)
    by (change 3600%Z with (Qfloor (inject_Z 3600)); apply Qfloor_resp_le, T').
  assert (D : forall n, (n / 3600 = n / 60 / 60)%Z)
    by (intro; rewrite Z.div_div by lia; reflexivity).
  assert (R : forall n, (n mod 3600 / 60 = (n / 60) mod 60)%Z).
  { intro n. change 3600%Z with (60 * 60)%Z.
    rewrite Z.rem_mul_r by lia.
    rewrite Z.mul_comm, Z.div_add by lia.
    rewrite Z.div_small by (apply Z.mod_pos_bound; lia). reflexivity. }
  rewrite !D, !R, E.
  replace (0 <? Qfloor t' / 60 / 60)%Z with true; [reflexivity |].
  symmetry. apply Z.ltb_lt. rewrite <- D.
  apply Z.div_str_pos. lia.
Qed.

(** What is not a duration, NaN or a negative number, and what is less than
    one second, reads as no time at all. *)
Theorem formatVideoDuration_nothing (x : number) :
  match x with
  | NaN => True
  | Num t => (t < 1)%Q
  end ->
  formatVideoDuration x = "0s".
Proof.
  destruct x as [| t]; intro H; [reflexivity |].
  destruct (Qlt_le_dec t 0) as [L | L].
  - unfold formatVideoDuration. rewrite (ltb_negative L). reflexivity.
  - rewrite format_parts by exact L. cbv zeta.
    replace (Qfloor t) with 0%Z; [reflexivity |].
    symmetry. apply Qfloor_unique; [exact L | exact H].
Qed.


(** ** The countdown on the screen *)

Lemma two_digits (n : nat) :
  (n < 60)%nat ->
  Text.padStart 2 "0" (Text.show (Z.of_nat n))
  = String (Text.digit (Z.of_nat n / 10))
      (String (Text.digit (Z.of_nat n mod 10)) "").
Proof.
  intro H. do 60 (destruct n as [| n]; [vm_compute; reflexivity |]). lia.
Qed.

(** The remaining time of the countdown is never negative, so it always
    reads as minutes, a colon and two digits of seconds. *)
Theorem countdown_text_well_formed (s : Screen) :
  reachable s ->
  let r := sessionTimeRemaining s in
  (0 <= r)%Z /\ (0 <= r / 60)%Z /\ (0 <= r mod 60 < 60)%Z /\
  sessionTimeText r
  = Text.show (r / 60) ++ ":"
    ++ String (Text.digit (r mod 60 / 10)) (String (Text.digit (r mod 60 mod 10)) "").
Proof.
  intros R r. pose proof (reachable_remaining R) as N.
  unfold remainingNonneg in N. fold r in N.
  assert (B : (0 <= r mod 60 < 60)%Z) by (apply Z.mod_pos_bound; lia).
  split; [exact N |]. split; [apply Z.div_pos; lia |]. split; [exact B |].
  unfold sessionTimeText. rewrite Z.rem_mod_nonneg by lia.
  rewrite <- (Z2Nat.id (r mod 60)) by lia.
  rewrite two_digits by lia. reflexivity.
Qed.

(** ** [scheduleSessionNotification] *)

(** A reminder is set only with the permission, only for a session that has
    not begun, and always for a time to come: five minutes before the
    session when that is still ahead, and otherwise the start of the
    session itself.  When the session has begun none is set. *)
Theorem reminder_is_ahead (Id : Type) (permissionGranted : bool)
    (scheduleNotificationAsync : Z -> option Id) (scheduledDate now : Z) :
  (forall id,
     scheduleSessionNotification permissionGranted scheduleNotificationAsync
       scheduledDate now = Some id ->
     permissionGranted = true /\ (now < scheduledDate)%Z /\
     exists triggerTime,
       scheduleNotificationAsync triggerTime = Some id /\
       (now < triggerTime <= scheduledDate)%Z /\
       triggerTime = (if (now <? scheduledDate - 300000)%Z
                      then scheduledDate - 300000 else scheduledDate)%Z) /\
  ((scheduledDate <= now)%Z ->
   scheduleSessionNotification permissionGranted scheduleNotificationAsync
     scheduledDate now = None).
Proof.
  unfold scheduleSessionNotification, reminderTrigger.
  change (5 * 60 * 1000)%Z with 300000%Z.
  split.
  - intros id H. destruct permissionGranted; [| discriminate].
    destruct (scheduledDate - 300000 <? now)%Z eqn:A;
      [apply Z.ltb_lt in A | apply Z.ltb_ge in A].
    + destruct (scheduledDate <=? now)%Z eqn:B;
        [apply Z.leb_le in B | apply Z.leb_gt in B].
      * destruct (now <? scheduledDate)%Z eqn:C;
          [apply Z.ltb_lt in C; lia | discriminate].
      * repeat split; try lia. exists scheduledDate.
        replace (now <? scheduledDate - 300000)%Z with false
          by (symmetry; apply Z.ltb_ge; lia).
        repeat split; (assumption || lia).
    + destruct (scheduledDate - 300000 <=? now)%Z eqn:B;
        [apply Z.leb_le in B | apply Z.leb_gt in B].
      * destruct (now <? scheduledDate)%Z eqn:C;
          [apply Z.ltb_lt in C | discriminate].
        repeat split; try lia. exists scheduledDate.
        replace (now <? scheduledDate - 300000)%Z with false
          by (symmetry; apply Z.ltb_ge; lia).
        repeat split; (assumption || lia).
      * repeat split; try lia. exists (scheduledDate - 300000)%Z.
        replace (now <? scheduledDate - 300000)%Z with true
          by (symmetry; apply Z.ltb_lt; lia).
        repeat split; (assumption || lia).
  - intro H. destruct permissionGranted; [| reflexivity].
    replace (scheduledDate - 300000 <? now)%Z with true
      by (symmetry; apply Z.ltb_lt; lia).
    replace (scheduledDate <=? now)%Z with true by (symmetry; apply Z.leb_le; lia).
    replace (now <? scheduledDate)%Z with false by (symmetry; apply Z.ltb_ge; lia).
    reflexivity.
Qed.

(** ** Instances *)

Lemma duration_without_PT_is_zero_witness : convertISO8601ToSeconds "P1D" = 0%N.
Proof.
  apply (@duration_without_PT_is_zero "P1D").
  intros pre body H.
  do 4 (destruct pre as [| ? pre]; try discriminate H).
Defined.


Lemma duration_with_days_is_zero_witness :
  convertISO8601ToSeconds ("P" ++ decimal 1 ++ "D" ++ "T2H3M4S") = 0%N.
Proof.
  apply (@duration_with_days_is_zero 1 "T2H3M4S").
  cbn. repeat split; discriminate.
Defined.


Lemma formatVideoDuration_drops_seconds_witness :
  formatVideoDuration (Num 3600) = formatVideoDuration (Num 3659).
Proof.
  apply (@formatVideoDuration_drops_seconds 3600 3659);
    [discriminate | discriminate | reflexivity].
Defined.

Lemma formatVideoDuration_nothing_witness :
  formatVideoDuration (Num (1 # 2)) = "0s".
Proof.
  apply (@formatVideoDuration_nothing (Num (1 # 2))). reflexivity.
Defined.


Lemma countdown_text_well_formed_witness :
  let s := step (TimerFires 1)
             (setNow 1735000 (session (freshVideo 600) (Some 30%Z) 0)) in
  let r := sessionTimeRemaining s in
  r = 65%Z /\
  sessionTimeText r
  = Text.show (r / 60) ++ ":"
    ++ String (Text.digit (r mod 60 / 10)) (String (Text.digit (r mod 60 mod 10)) "").
Proof.
  intros s r. split; [vm_compute; reflexivity |].
  assert (R : reachable s).
  { apply reach_step, reach_clock; [apply reachable_session |].
    vm_compute. discriminate. }
  exact (proj2 (proj2 (proj2 (@countdown_text_well_formed s R)))).
Defined.

Lemma reminder_is_ahead_witness :
  scheduleSessionNotification true (fun t => Some t) 1000000 1200000 = None.
Proof.
  apply (proj2 (@reminder_is_ahead Z true (fun t => Some t) 1000000 1200000)).
  vm_compute. discriminate.
Defined.

End HelpersFacts.
